(** * voice2text: the coordination core, embedded and verified

    A shallow embedding of the three TypeScript units that make up the
    push-to-talk transcription client:

    - [services/deepgramService.ts]  (module [Deepgram]): the channel to the
      remote service, with its frame decoder [handleMessage];
    - [services/audioCapture.ts]     (module [AudioCapture]): the microphone;
    - [hooks/useVoiceToText.ts]      (module [Hook]): the coordinator that owns
      the state snapshot and the handlers it registers on the channel.

    Platform objects (the WebSocket, the MediaRecorder, [navigator]) are
    modelled by the part of their state the program reads or writes; what the
    platform decides (whether a prompt is granted, whether a constructor
    throws) enters the model as an explicit argument. *)

From stdpp Require Import base option list strings.
From Stdlib Require Import PrimFloat.

Set Warnings "-register-all".

(** ** JavaScript values and completions *)

(** What a [throw] can carry, as far as the program inspects it: the catch
    blocks test [instanceof DOMException] and [instanceof Error] and read
    [name] and [message]. *)
Inductive Thrown : Type :=
| DOMException (name message : string)
| ErrorObject (name message : string)
| NonError.

(** The [TypeError] of a property read on [null] or [undefined]. Its message
    is engine text that the program only logs. *)
Definition TypeError : Thrown := ErrorObject "TypeError" "".
Definition SyntaxError : Thrown := ErrorObject "SyntaxError" "".

Inductive completion (A : Type) : Type :=
| Normal (a : A)
| Throw (e : Thrown).
Arguments Normal {A} a.
Arguments Throw {A} e.

#[global] Instance completion_ret : MRet completion := @Normal.
#[global] Instance completion_bind : MBind completion := fun A B f c =>
  match c with
  | Normal a => f a
  | Throw e => Throw e
  end.

(** A value produced by [JSON.parse]. Numbers are IEEE doubles. An object is
    the list of its own members; [JSON.parse] keeps one member per name. *)
Inductive json : Type :=
| JNull
| JBool (b : bool)
| JNum (n : float)
| JStr (s : string)
| JArr (items : list json)
| JObj (members : list (string * json)).

(** A JavaScript value met while reading such a tree: [None] is [undefined]. *)
Definition jsval : Type := option json.
Definition undefined : jsval := None.

Fixpoint assoc (k : string) (members : list (string * json)) : jsval :=
  match members with
  | [] => undefined
  | (k', v) :: rest => if String.eqb k k' then Some v else assoc k rest
  end.

(** [j.k] on a value that is neither [null] nor [undefined], for a member
    name [k] that no prototype defines and that is neither [length] nor an
    index: the names [type], [channel], [alternatives], [transcript],
    [confidence], [words], [is_final] and [message] that the decoder reads.
    Only an object can have such a member. *)
Definition own (k : string) (j : json) : jsval :=
  match j with
  | JObj members => assoc k members
  | _ => undefined
  end.

(** [v.k]: a [TypeError] on [null] and [undefined]. *)
Definition get (k : string) (v : jsval) : completion jsval :=
  match v with
  | None | Some JNull => Throw TypeError
  | Some j => Normal (own k j)
  end.

(** [v?.k]: [undefined] on [null] and [undefined]. *)
Definition get_opt (k : string) (v : jsval) : jsval :=
  match v with
  | None | Some JNull => undefined
  | Some j => own k j
  end.

(** ToBoolean. *)
Definition truthy (v : jsval) : bool :=
  match v with
  | None | Some JNull => false
  | Some (JBool b) => b
  | Some (JNum n) => negb (PrimFloat.eqb n 0%float || PrimFloat.is_nan n)
  | Some (JStr s) => negb (String.eqb s "")
  | Some (JArr _) | Some (JObj _) => true
  end.

(** [v || d] for a default [d] that is a JSON-representable literal. *)
Definition or_else (v : jsval) (d : json) : json :=
  match v with
  | Some j => if truthy v then j else d
  | None => d
  end.

(** [v === 'lit'] *)
Definition strict_eq_string (v : jsval) (lit : string) : bool :=
  match v with
  | Some (JStr s) => String.eqb s lit
  | _ => false
  end.

(** The value of [v?.length]: arrays and strings carry their length, an
    object may have a member of that name, nothing else has one. *)
Inductive length_value : Type :=
| LenUndefined
| LenCount (n : nat)
| LenMember (v : json).

Definition length_opt (v : jsval) : length_value :=
  match v with
  | None | Some JNull => LenUndefined
  | Some (JArr items) => LenCount (length items)
  | Some (JStr s) => LenCount (String.length s)
  | Some (JObj members) =>
      match assoc "length" members with
      | Some l => LenMember l
      | None => LenUndefined
      end
  | Some (JBool _) | Some (JNum _) => LenUndefined
  end.

(** [v[0]] on a value that is neither [null] nor [undefined]. A string is
    indexed by code unit; [ascii] stands for the code unit here. *)
Definition index0 (v : jsval) : completion jsval :=
  match v with
  | None | Some JNull => Throw TypeError
  | Some (JArr items) => Normal (head items)
  | Some (JStr s) =>
      Normal (match s with
              | EmptyString => undefined
              | String c _ => Some (JStr (String c EmptyString))
              end)
  | Some (JObj members) => Normal (assoc "0" members)
  | Some (JBool _) | Some (JNum _) => Normal undefined
  end.

(** The two coercions whose result depends on the engine's number parsing
    and printing, or on members named [toString] and [valueOf]: comparing
    with [0] a value that is not a number, and converting to text a value
    that is not a string. The embedding takes them from the engine. *)
Class JsEngine : Type := {
  coerced_gt_zero : json -> completion bool;
  coerced_to_string : json -> completion string
}.

(** [l > 0] for [l] the result of [v?.length]. *)
Definition gt_zero `{JsEngine} (l : length_value) : completion bool :=
  match l with
  | LenUndefined => Normal false
  | LenCount n => Normal (Nat.ltb 0 n)
  | LenMember (JNum x) => Normal (PrimFloat.ltb 0%float x)
  | LenMember v => coerced_gt_zero v
  end.

(** The [message] of [new Error(v)] for a [v] that is not [undefined]. *)
Definition error_message `{JsEngine} (v : json) : completion string :=
  match v with
  | JStr s => Normal s
  | _ => coerced_to_string v
  end.

(** ** services/deepgramService.ts *)

Module Deepgram.

Record DeepgramConfig : Type := {
  apiKey : string;
  language : string;
  model : string;
  punctuate : bool;
  interimResults : bool
}.

(** The object literal that [handleMessage] builds from a frame whose type is
    [any]: each field holds whatever value the frame supplied. *)
Record ResultObject : Type := {
  transcript_value : json;
  isFinal_value : json;
  confidence_value : json;
  words_value : jsval
}.

(** The interface [TranscriptionResult] as a handler reads it: [transcript]
    as the string it is declared to be, [isFinal] as the outcome of the test
    [if (result.isFinal)]. Nothing in the program reads [confidence] or
    [words]; they are kept as the values received. *)
Record TranscriptionResult : Type := {
  transcript : string;
  isFinal : bool;
  confidence : json;
  words : jsval
}.

(** The result object read through the interface; a [transcript] that is
    not a string is outside of it. *)
Definition conforms (r : ResultObject) : option TranscriptionResult :=
  match transcript_value r with
  | JStr t =>
      Some {| transcript := t; isFinal := truthy (Some (isFinal_value r));
              confidence := confidence_value r; words := words_value r |}
  | _ => None
  end.

(** A call on the registered [DeepgramEventHandler]; [onError] receives an
    [Error], of which handlers read the message. *)
Inductive HandlerCall : Type :=
| OnTranscript (result : ResultObject)
| OnError (message : string)
| OnOpen
| OnClose.

Inductive Level : Type := LogLevel | WarnLevel | ErrorLevel.

Inductive ReadyState : Type := CONNECTING | OPEN | CLOSING | CLOSED.

Inductive Frame : Type :=
| TextFrame (stringified : json)
| BinaryFrame (bytes : list Byte.byte).

(** The argument of [sendAudio]: a [Blob], of which the method reads [size]
    and [type], or an [ArrayBuffer]. *)
Inductive AudioData : Type :=
| BlobData (size : nat) (type : string)
| BufferData (bytes : list Byte.byte).

(** A platform WebSocket: what it was opened with, its [readyState] and the
    frames handed to [send]. *)
Record WebSocket : Type := {
  query : list (string * string);
  protocols : list string;
  readyState : ReadyState;
  outbox : list Frame
}.

Definition ws_send (f : Frame) (ws : WebSocket) : WebSocket :=
  {| query := query ws; protocols := protocols ws;
     readyState := readyState ws; outbox := outbox ws ++ [f] |}.

(** [close()] starts the closing handshake unless one has started. *)
Definition ws_close (ws : WebSocket) : WebSocket :=
  {| query := query ws; protocols := protocols ws;
     readyState := match readyState ws with
                   | CONNECTING | OPEN => CLOSING
                   | st => st
                   end;
     outbox := outbox ws |}.

Definition is_open (ws : WebSocket) : bool :=
  match readyState ws with OPEN => true | _ => false end.

(** What [event.data] is to [JSON.parse]: text it rejects with a
    [SyntaxError], or text it parses to [data]. *)
Inductive MessageData : Type :=
| Unparseable
| Parses (data : json).

Definition JSON_parse (d : MessageData) : completion json :=
  match d with
  | Unparseable => Throw SyntaxError
  | Parses data => Normal data
  end.

Section Service.

(** The handler bundles passed to [connect]. *)
Context {Handlers : Type}.

Inductive Effect : Type :=
| Console (level : Level) (text : string)
| Invoke (h : Handlers) (call : HandlerCall).

(** The service object; [socket] refers to a WebSocket in the platform's
    store by its position. *)
Record DeepgramService : Type := {
  socket : option nat;
  config : DeepgramConfig;
  handlers : option Handlers;
  isConnected : bool
}.

Definition new_DeepgramService (key : string) : DeepgramService :=
  {| socket := None;
     config := {| apiKey := key; language := "en"; model := "nova-2";
                  punctuate := true; interimResults := true |};
     handlers := None;
     isConnected := false |}.

Definition set_isConnected (b : bool) (this : DeepgramService) : DeepgramService :=
  {| socket := socket this; config := config this;
     handlers := handlers this; isConnected := b |}.

Definition set_socket (s : option nat) (this : DeepgramService) : DeepgramService :=
  {| socket := s; config := config this;
     handlers := handlers this; isConnected := isConnected this |}.

Definition set_handlers (h : option Handlers) (this : DeepgramService) : DeepgramService :=
  {| socket := socket this; config := config this;
     handlers := h; isConnected := isConnected this |}.

Definition set_apiKey (key : string) (this : DeepgramService) : DeepgramService :=
  {| socket := socket this;
     config := {| apiKey := key; language := language (config this);
                  model := model (config this); punctuate := punctuate (config this);
                  interimResults := interimResults (config this) |};
     handlers := handlers this; isConnected := isConnected this |}.

(** [this.handlers?.f(...)] *)
Definition invoke (this : DeepgramService) (call : HandlerCall) : list Effect :=
  match handlers this with
  | Some h => [Invoke h call]
  | None => []
  end.

Definition String_of_bool (b : bool) : string := if b then "true" else "false".

Definition thrown_message (fallback : string) (e : Thrown) : string :=
  match e with
  | DOMException _ m | ErrorObject _ m => m
  | NonError => fallback
  end.

(** [connect(handlers)]. [ctor] is what [new WebSocket(...)] does: it
    returns, or throws (on a subprotocol that is not a token, for instance).
    The four socket callbacks it installs are [socket_onopen],
    [socket_onmessage], [socket_onerror] and [socket_onclose] below. *)
Definition connect (h : Handlers) (ctor : completion unit)
    (this : DeepgramService) (sockets : list WebSocket)
  : DeepgramService * list WebSocket * list Effect :=
  if isConnected this then
    (this, sockets, [Console WarnLevel "Already connected to Deepgram"])
  else
    let this := set_handlers (Some h) this in
    let params := [("model", model (config this));
                   ("language", language (config this));
                   ("punctuate", String_of_bool (punctuate (config this)));
                   ("interim_results", String_of_bool (interimResults (config this)))] in
    match ctor with
    | Normal _ =>
        let ws := {| query := params; protocols := ["token"; apiKey (config this)];
                     readyState := CONNECTING; outbox := [] |} in
        (set_socket (Some (length sockets)) this, sockets ++ [ws], [])
    | Throw e =>
        (this, sockets,
         invoke this (OnError (thrown_message "Failed to connect to Deepgram" e)))
    end.

(** [disconnect()] *)
Definition disconnect (this : DeepgramService) (sockets : list WebSocket)
  : DeepgramService * list WebSocket :=
  match socket this with
  | Some i =>
      let close_stream (ws : WebSocket) :=
        if is_open ws
        then ws_send (TextFrame (JObj [("type", JStr "CloseStream")])) ws
        else ws in
      (set_isConnected false (set_socket None this),
       alter (fun ws => ws_close (close_stream ws)) i sockets)
  | None => (set_isConnected false this, sockets)
  end.

(** [isReady()] *)
Definition isReady (this : DeepgramService) (sockets : list WebSocket) : bool :=
  isConnected this &&
  match socket this with
  | Some i => match sockets !! i with Some ws => is_open ws | None => false end
  | None => false
  end.

(** [updateApiKey(apiKey)] *)
Definition updateApiKey (key : string) (this : DeepgramService) (sockets : list WebSocket)
  : DeepgramService * list WebSocket :=
  let this := set_apiKey key this in
  if isConnected this then disconnect this sockets else (this, sockets).

(** [socket.send(data)] as the platform does it: an exception on a socket
    that is still connecting, the frame queued on an open one, the data
    discarded once the socket is closing or closed. *)
Definition send (f : Frame) (ws : WebSocket) : completion WebSocket :=
  match readyState ws with
  | CONNECTING => Throw (DOMException "InvalidStateError" "")
  | OPEN => Normal (ws_send f ws)
  | CLOSING | CLOSED => Normal ws
  end.

(** [sendAudio(audioData)]: the sockets after the call, what it logs, and
    whether it leaves a promise [audioData.arrayBuffer()] behind. A position
    that the store does not have is read as a socket that is not open. *)
Definition sendAudio (audioData : AudioData) (this : DeepgramService)
    (sockets : list WebSocket) : list WebSocket * list Effect * bool :=
  let dropped :=
    (sockets, [Console WarnLevel "Cannot send audio: WebSocket not connected"], false) in
  match socket this with
  | Some i =>
      match sockets !! i with
      | Some ws =>
          if is_open ws then
            match audioData with
            | BlobData _ _ =>
                (sockets, [Console LogLevel "Sending audio blob:"], true)
            | BufferData bytes =>
                (alter (ws_send (BinaryFrame bytes)) i sockets,
                 [Console LogLevel "Sending audio buffer:"], false)
            end
          else dropped
      | None => dropped
      end
  | None => dropped
  end.

(** The continuation [(buffer) => { this.socket?.send(buffer) }] of that
    promise, run when the blob's bytes are there: it reads [this.socket]
    then, not when [sendAudio] was called. *)
Definition arrayBuffer_then (buffer : list Byte.byte) (this : DeepgramService)
    (sockets : list WebSocket) : completion (list WebSocket) :=
  match socket this with
  | Some i =>
      match sockets !! i with
      | Some ws => ws ← send (BinaryFrame buffer) ws; Normal (<[i := ws]> sockets)
      | None => Normal sockets
      end
  | None => Normal sockets
  end.

(** *** The frame decoder *)

(** Statements of the [try] block: the effects so far, and how it went on. *)
Record M (A : Type) : Type := mkM { trace : list Effect; outcome : completion A }.
Arguments mkM {A} trace outcome.
Arguments trace {A} m.
Arguments outcome {A} m.

#[global] Instance M_ret : MRet M := fun A a => mkM [] (Normal a).
#[global] Instance M_bind : MBind M := fun A B f m =>
  match m with
  | mkM effects (Normal a) =>
      match f a with
      | mkM effects' o => mkM (effects ++ effects') o
      end
  | mkM effects (Throw e) => mkM effects (Throw e)
  end.

Definition eval {A} (c : completion A) : M A := mkM [] c.
Definition emit (effects : list Effect) : M unit := mkM effects (Normal tt).

(** [try { body } catch (error) { handler }] where the handler only logs. *)
Definition try_catch_log (body : M unit) (text : string) : M unit :=
  match outcome body with
  | Normal _ => body
  | Throw _ => mkM (trace body ++ [Console ErrorLevel text]) (Normal tt)
  end.

Context `{JsEngine}.

(** The statement under [// Handle transcription results]. *)
Definition handle_results (this : DeepgramService) (data : json) : M unit :=
  type ← eval (get "type" (Some data));
  has_alternative ←
    (if strict_eq_string type "Results"
     then channel ← eval (get "channel" (Some data));
          eval (gt_zero (length_opt (get_opt "alternatives" channel)))
     else mret false);
  if has_alternative : bool then
    channel ← eval (get "channel" (Some data));
    alternatives ← eval (get "alternatives" channel);
    alternative ← eval (index0 alternatives);
    transcript ← eval (get "transcript" alternative);
    is_final ← eval (get "is_final" (Some data));
    confidence ← eval (get "confidence" alternative);
    words ← eval (get "words" alternative);
    let result := {| transcript_value := or_else transcript (JStr "");
                     isFinal_value := or_else is_final (JBool false);
                     confidence_value := or_else confidence (JNum 0%float);
                     words_value := words |} in
    if truthy (Some (transcript_value result))
    then emit (invoke this (OnTranscript result))
    else mret tt
  else mret tt.

(** The statement under [// Handle errors from Deepgram]. *)
Definition handle_error (this : DeepgramService) (data : json) : M unit :=
  type ← eval (get "type" (Some data));
  if strict_eq_string type "Error" then
    message ← eval (get "message" (Some data));
    text ← eval (error_message (or_else message (JStr "Deepgram error")));
    emit (invoke this (OnError text))
  else mret tt.

(** The body of the [try] block. *)
Definition handleMessage_try (this : DeepgramService) (event_data : MessageData) : M unit :=
  data ← eval (JSON_parse event_data);
  handle_results this data;;
  handle_error this data.

(** [handleMessage(event)] *)
Definition handleMessage (this : DeepgramService) (event_data : MessageData) : M unit :=
  try_catch_log (handleMessage_try this event_data) "Failed to parse Deepgram message:".

(** *** The callbacks installed on the socket by [connect] *)

Definition socket_onopen (this : DeepgramService) : DeepgramService * list Effect :=
  let this := set_isConnected true this in
  (this, Console LogLevel "Connected to Deepgram" :: invoke this OnOpen).

Definition socket_onmessage (this : DeepgramService) (event_data : MessageData)
  : DeepgramService * M unit :=
  (this, handleMessage this event_data).

Definition socket_onerror (this : DeepgramService) : DeepgramService * list Effect :=
  (this, Console ErrorLevel "Deepgram WebSocket error:"
           :: invoke this (OnError "WebSocket connection error")).

Definition socket_onclose (this : DeepgramService) : DeepgramService * list Effect :=
  let this := set_isConnected false this in
  (this, Console LogLevel "Disconnected from Deepgram:" :: invoke this OnClose).

End Service.

Arguments Effect : clear implicits.
Arguments DeepgramService : clear implicits.
Arguments M : clear implicits.
Arguments mkM {Handlers A} trace outcome.
Arguments trace {Handlers A} m.
Arguments outcome {Handlers A} m.

End Deepgram.

(** ** services/audioCapture.ts *)

Module AudioCapture.

(** Platform objects the service holds by reference; each call that
    creates one yields an object of its own. *)
Definition MediaStream : Type := nat.
Definition AudioContext : Type := nat.

Record Blob : Type := { size : nat; type : string }.

Inductive RecordingState : Type := inactive | recording | paused.

Record MediaRecorder : Type := { stream : MediaStream; state : RecordingState }.

(** [navigator.mediaDevices], with what [getUserMedia] answers to the
    audio request when it exists. *)
Inductive MediaDevices : Type :=
| NoMediaDevices
| NoGetUserMedia
| GetUserMedia (answer : completion MediaStream).

(** What the platform decides during [initialize]. *)
Record CapturePlatform : Type := {
  mediaDevices : MediaDevices;
  new_AudioContext : completion AudioContext
}.

(** What the platform decides during [startRecording]. *)
Record RecorderPlatform : Type := {
  new_MediaRecorder : completion unit;
  start : completion unit
}.

Inductive Released : Type :=
| TracksStopped (s : MediaStream)
| ContextClosed (c : AudioContext).

Inductive PermissionState : Type := granted | denied | prompt.

(** The static [checkPermission()], given what [navigator.permissions.query]
    does: it answers with a state, or throws where the query is not
    supported. *)
Definition checkPermission (query : completion PermissionState) : PermissionState :=
  match query with
  | Normal st => st
  | Throw _ => prompt
  end.

Section Service.

(** The chunk callbacks passed to [startRecording]. *)
Context {Callback : Type}.

Record AudioCaptureService : Type := {
  mediaStream : option MediaStream;
  audioContext : option AudioContext;
  mediaRecorder : option MediaRecorder;
  audioChunks : list Blob;
  onDataCallback : option Callback
}.

Definition new_AudioCaptureService : AudioCaptureService :=
  {| mediaStream := None; audioContext := None; mediaRecorder := None;
     audioChunks := []; onDataCallback := None |}.

Definition set_mediaStream (s : option MediaStream) (this : AudioCaptureService) :=
  {| mediaStream := s; audioContext := audioContext this;
     mediaRecorder := mediaRecorder this; audioChunks := audioChunks this;
     onDataCallback := onDataCallback this |}.

Definition set_audioContext (c : option AudioContext) (this : AudioCaptureService) :=
  {| mediaStream := mediaStream this; audioContext := c;
     mediaRecorder := mediaRecorder this; audioChunks := audioChunks this;
     onDataCallback := onDataCallback this |}.

Definition set_mediaRecorder (r : option MediaRecorder) (this : AudioCaptureService) :=
  {| mediaStream := mediaStream this; audioContext := audioContext this;
     mediaRecorder := r; audioChunks := audioChunks this;
     onDataCallback := onDataCallback this |}.

Definition set_audioChunks (chunks : list Blob) (this : AudioCaptureService) :=
  {| mediaStream := mediaStream this; audioContext := audioContext this;
     mediaRecorder := mediaRecorder this; audioChunks := chunks;
     onDataCallback := onDataCallback this |}.

Definition set_onDataCallback (cb : option Callback) (this : AudioCaptureService) :=
  {| mediaStream := mediaStream this; audioContext := audioContext this;
     mediaRecorder := mediaRecorder this; audioChunks := audioChunks this;
     onDataCallback := cb |}.

Definition media_devices_unsupported : string :=
  "Media devices not supported. This may be a permissions issue on macOS. " +:+
  "Please ensure microphone access is granted in System Preferences > Security & Privacy > Privacy > Microphone.".

(** [checkMediaDevicesSupport()], continuing with the answer of
    [getUserMedia] when it is there to be called. *)
Definition checkMediaDevicesSupport (devices : MediaDevices)
  : completion (completion MediaStream) :=
  match devices with
  | NoMediaDevices => Throw (ErrorObject "Error" media_devices_unsupported)
  | NoGetUserMedia =>
      Throw (ErrorObject "Error" "getUserMedia not supported in this environment.")
  | GetUserMedia answer => Normal answer
  end.

(** [handlePermissionError(error)] *)
Definition handlePermissionError (error : Thrown) : Thrown :=
  match error with
  | DOMException name message =>
      if String.eqb name "NotAllowedError" then
        ErrorObject "Error"
          "Microphone permission denied. Please allow microphone access in your system settings."
      else if String.eqb name "NotFoundError" then
        ErrorObject "Error"
          "No microphone found. Please connect a microphone and try again."
      else if String.eqb name "NotReadableError" then
        ErrorObject "Error"
          "Microphone is in use by another application. Please close other apps using the microphone."
      else ErrorObject "Error" ("Microphone error: " +:+ message)
  | ErrorObject _ _ => error
  | NonError => ErrorObject "Error" "Unknown audio capture error"
  end.

(** [initialize()]: the service after the call, and what the promise
    settles to. It has no test of [this.mediaStream]: every call asks the
    platform again. *)
Definition initialize (platform : CapturePlatform) (this : AudioCaptureService)
  : AudioCaptureService * completion bool :=
  match checkMediaDevicesSupport (mediaDevices platform) with
  | Throw e => (this, Throw (handlePermissionError e))
  | Normal (Throw e) => (this, Throw (handlePermissionError e))
  | Normal (Normal stream) =>
      let this := set_mediaStream (Some stream) this in
      match new_AudioContext platform with
      | Throw e => (this, Throw (handlePermissionError e))
      | Normal context => (set_audioContext (Some context) this, Normal true)
      end
  end.

(** [startRecording(onData)] *)
Definition startRecording (onData : Callback) (platform : RecorderPlatform)
    (this : AudioCaptureService) : AudioCaptureService * completion unit :=
  match mediaStream this with
  | None =>
      (this, Throw (ErrorObject "Error"
                      "Audio capture not initialized. Call initialize() first."))
  | Some stream =>
      let this := set_audioChunks [] (set_onDataCallback (Some onData) this) in
      match new_MediaRecorder platform with
      | Throw _ =>
          (this, Throw (ErrorObject "Error"
                          "Audio recording is not supported in this browser/environment"))
      | Normal _ =>
          let this := set_mediaRecorder
                        (Some {| stream := stream; state := inactive |}) this in
          match start platform with
          | Throw e => (this, Throw e)
          | Normal _ =>
              (set_mediaRecorder
                 (Some {| stream := stream; state := recording |}) this,
               Normal tt)
          end
      end
  end.

(** [mediaRecorder.ondataavailable]: the service after the event, and the
    callback to run on the chunk, if any. *)
Definition ondataavailable (data : Blob) (this : AudioCaptureService)
  : AudioCaptureService * option (Callback * Blob) :=
  if Nat.ltb 0 (size data) then
    let this := set_audioChunks (audioChunks this ++ [data]) this in
    (this, match onDataCallback this with
           | Some cb => Some (cb, data)
           | None => None
           end)
  else (this, None).

(** [new Blob(chunks, { type: 'audio/webm' })] *)
Definition concat_blobs (chunks : list Blob) : Blob :=
  {| size := foldr (fun b n => size b + n) 0 chunks; type := "audio/webm" |}.

(** [stopRecording()] *)
Definition stopRecording (this : AudioCaptureService)
  : AudioCaptureService * option Blob :=
  let this :=
    match mediaRecorder this with
    | Some r =>
        match state r with
        | inactive => this
        | _ => set_mediaRecorder (Some {| stream := stream r; state := inactive |}) this
        end
    | None => this
    end in
  match audioChunks this with
  | [] => (this, None)
  | chunks => (set_audioChunks [] this, Some (concat_blobs chunks))
  end.

(** [isRecording()] *)
Definition isRecording (this : AudioCaptureService) : bool :=
  match mediaRecorder this with
  | Some r => match state r with recording => true | _ => false end
  | None => false
  end.

(** [dispose()], with the platform objects it lets go of. *)
Definition dispose (this : AudioCaptureService) : AudioCaptureService * list Released :=
  let this := fst (stopRecording this) in
  let tracks := match mediaStream this with Some s => [TracksStopped s] | None => [] end in
  let this := set_mediaStream None this in
  let context := match audioContext this with Some c => [ContextClosed c] | None => [] end in
  (set_audioContext None this, tracks ++ context).

End Service.

Arguments AudioCaptureService : clear implicits.

End AudioCapture.

(** ** hooks/useVoiceToText.ts *)

Module Hook.

Record VoiceToTextState : Type := {
  isRecording : bool;
  isConnected : bool;
  isInitialized : bool;
  transcript : string;
  interimTranscript : string;
  error : option string;
  permissionStatus : option AudioCapture.PermissionState
}.

Definition initial_state : VoiceToTextState :=
  {| isRecording := false; isConnected := false; isInitialized := false;
     transcript := ""; interimTranscript := ""; error := None;
     permissionStatus := None |}.

(** The object literal [{ onOpen, onTranscript, onError, onClose }] that
    [startRecording] passes to [connect], and the arrow function that
    [onOpen] passes to the audio service: it forwards each chunk to
    [sendAudio]. *)
Inductive Handlers : Type := handlers_of_startRecording.
Inductive Forward : Type := forward_to_sendAudio.

(** Everything the hook's callbacks close over: the React state, the two
    refs, and the platform's store of WebSockets. *)
Record World : Type := {
  state : VoiceToTextState;
  audioServiceRef : option (AudioCapture.AudioCaptureService Forward);
  deepgramServiceRef : option (Deepgram.DeepgramService Handlers);
  sockets : list Deepgram.WebSocket
}.

Definition initial_world : World :=
  {| state := initial_state; audioServiceRef := None;
     deepgramServiceRef := None; sockets := [] |}.

(** What the platform decides while an action or a callback runs. *)
Record Platform : Type := {
  new_WebSocket : completion unit;
  recorder : AudioCapture.RecorderPlatform;
  capture : AudioCapture.CapturePlatform;
  permissions_query : completion AudioCapture.PermissionState;
  clipboard_writeText : completion unit
}.

(** [setState((prev) => f(prev))] *)
Definition setState (f : VoiceToTextState -> VoiceToTextState) (w : World) : World :=
  {| state := f (state w); audioServiceRef := audioServiceRef w;
     deepgramServiceRef := deepgramServiceRef w; sockets := sockets w |}.

Definition set_audioServiceRef
    (r : option (AudioCapture.AudioCaptureService Forward)) (w : World) : World :=
  {| state := state w; audioServiceRef := r;
     deepgramServiceRef := deepgramServiceRef w; sockets := sockets w |}.

Definition set_deepgramServiceRef
    (r : option (Deepgram.DeepgramService Handlers)) (w : World) : World :=
  {| state := state w; audioServiceRef := audioServiceRef w;
     deepgramServiceRef := r; sockets := sockets w |}.

Definition set_sockets (l : list Deepgram.WebSocket) (w : World) : World :=
  {| state := state w; audioServiceRef := audioServiceRef w;
     deepgramServiceRef := deepgramServiceRef w; sockets := l |}.

(** *** The updaters [{ ...prev, field: value }] *)

Definition with_isRecording (b : bool) (prev : VoiceToTextState) : VoiceToTextState :=
  {| isRecording := b; isConnected := isConnected prev;
     isInitialized := isInitialized prev; transcript := transcript prev;
     interimTranscript := interimTranscript prev; error := error prev;
     permissionStatus := permissionStatus prev |}.

Definition with_isConnected (b : bool) (prev : VoiceToTextState) : VoiceToTextState :=
  {| isRecording := isRecording prev; isConnected := b;
     isInitialized := isInitialized prev; transcript := transcript prev;
     interimTranscript := interimTranscript prev; error := error prev;
     permissionStatus := permissionStatus prev |}.

Definition with_isInitialized (b : bool) (prev : VoiceToTextState) : VoiceToTextState :=
  {| isRecording := isRecording prev; isConnected := isConnected prev;
     isInitialized := b; transcript := transcript prev;
     interimTranscript := interimTranscript prev; error := error prev;
     permissionStatus := permissionStatus prev |}.

Definition with_transcript (t : string) (prev : VoiceToTextState) : VoiceToTextState :=
  {| isRecording := isRecording prev; isConnected := isConnected prev;
     isInitialized := isInitialized prev; transcript := t;
     interimTranscript := interimTranscript prev; error := error prev;
     permissionStatus := permissionStatus prev |}.

Definition with_interimTranscript (t : string) (prev : VoiceToTextState) : VoiceToTextState :=
  {| isRecording := isRecording prev; isConnected := isConnected prev;
     isInitialized := isInitialized prev; transcript := transcript prev;
     interimTranscript := t; error := error prev;
     permissionStatus := permissionStatus prev |}.

Definition with_error (e : option string) (prev : VoiceToTextState) : VoiceToTextState :=
  {| isRecording := isRecording prev; isConnected := isConnected prev;
     isInitialized := isInitialized prev; transcript := transcript prev;
     interimTranscript := interimTranscript prev; error := e;
     permissionStatus := permissionStatus prev |}.

Definition with_permissionStatus (p : option AudioCapture.PermissionState)
    (prev : VoiceToTextState)
  : VoiceToTextState :=
  {| isRecording := isRecording prev; isConnected := isConnected prev;
     isInitialized := isInitialized prev; transcript := transcript prev;
     interimTranscript := interimTranscript prev; error := error prev;
     permissionStatus := p |}.

(** *** The handlers registered on the channel *)

(** The updater of [onTranscript]. The test [prev.transcript ? ... : ...]
    is on a string: false exactly on the empty one. *)
Definition merge_transcript (result : Deepgram.TranscriptionResult)
    (prev : VoiceToTextState) : VoiceToTextState :=
  if Deepgram.isFinal result then
    let newTranscript :=
      if String.eqb (transcript prev) ""
      then Deepgram.transcript result
      else transcript prev +:+ " " +:+ Deepgram.transcript result in
    with_interimTranscript "" (with_transcript newTranscript prev)
  else
    with_interimTranscript (Deepgram.transcript result) prev.

Definition onTranscript (result : Deepgram.TranscriptionResult) (w : World) : World :=
  setState (merge_transcript result) w.

Definition onError (message : string) (w : World) : World :=
  setState (fun prev =>
    with_isConnected false (with_isRecording false (with_error (Some message) prev))) w.

Definition onClose (w : World) : World :=
  setState (fun prev => with_isRecording false (with_isConnected false prev)) w.

(** [onOpen]: when the audio service throws, the statements after the call
    do not run. *)
Definition onOpen (platform : Platform) (w : World) : World :=
  let w := setState (with_isConnected true) w in
  match audioServiceRef w with
  | Some audio =>
      let '(audio, started) :=
        AudioCapture.startRecording forward_to_sendAudio (recorder platform) audio in
      let w := set_audioServiceRef (Some audio) w in
      match started with
      | Normal _ => setState (with_isRecording true) w
      | Throw _ => w
      end
  | None => setState (with_isRecording true) w
  end.

(** A call made by the channel on the handlers. [None] stands for a result
    object whose [transcript] is not the string the handler takes it for. *)
Definition deliver (platform : Platform) (call : Deepgram.HandlerCall) (w : World)
  : option World :=
  match call with
  | Deepgram.OnTranscript r =>
      result ← Deepgram.conforms r; Some (onTranscript result w)
  | Deepgram.OnError message => Some (onError message w)
  | Deepgram.OnOpen => Some (onOpen platform w)
  | Deepgram.OnClose => Some (onClose w)
  end.

Fixpoint run (platform : Platform) (effects : list (Deepgram.Effect Handlers)) (w : World)
  : option World :=
  match effects with
  | [] => Some w
  | Deepgram.Console _ _ :: rest => run platform rest w
  | Deepgram.Invoke _ call :: rest => w ← deliver platform call w; run platform rest w
  end.

(** *** The actions *)

(** [initialize()], for the hook rendered with [apiKey]. *)
Definition initialize (apiKey : string) (platform : Platform) (w : World) : World :=
  let w := setState (with_error None) w in
  let status := AudioCapture.checkPermission (permissions_query platform) in
  let w := setState (with_permissionStatus (Some status)) w in
  match AudioCapture.initialize (capture platform) AudioCapture.new_AudioCaptureService with
  | (audioService, Normal _) =>
      let w := set_audioServiceRef (Some audioService) w in
      let w := if String.eqb apiKey "" then w
               else set_deepgramServiceRef (Some (Deepgram.new_DeepgramService apiKey)) w in
      setState (fun prev =>
        with_permissionStatus (Some AudioCapture.granted) (with_isInitialized true prev)) w
  | (_, Throw e) =>
      setState (fun prev =>
        with_isInitialized false
          (with_error (Some (Deepgram.thrown_message "Failed to initialize" e)) prev)) w
  end.

(** [startRecording()], for the hook rendered with [apiKey]. *)
Definition startRecording (apiKey : string) (platform : Platform) (w : World)
  : option World :=
  match audioServiceRef w, deepgramServiceRef w with
  | Some _, Some deepgram =>
      if String.eqb apiKey "" then
        Some (setState (with_error (Some "Deepgram API key is required.")) w)
      else
        let w := setState (fun prev =>
                   with_interimTranscript "" (with_error None prev)) w in
        let '(deepgram, sockets, effects) :=
          Deepgram.connect handlers_of_startRecording (new_WebSocket platform)
            deepgram (sockets w) in
        run platform effects
          (set_sockets sockets (set_deepgramServiceRef (Some deepgram) w))
  | _, _ =>
      Some (setState
              (with_error (Some "Services not initialized. Please initialize first.")) w)
  end.

(** [stopRecording()] *)
Definition stopRecording (w : World) : World :=
  let w := match audioServiceRef w with
           | Some audio =>
               set_audioServiceRef (Some (fst (AudioCapture.stopRecording audio))) w
           | None => w
           end in
  let w := match deepgramServiceRef w with
           | Some deepgram =>
               let '(deepgram, sockets) := Deepgram.disconnect deepgram (sockets w) in
               set_sockets sockets (set_deepgramServiceRef (Some deepgram) w)
           | None => w
           end in
  setState (fun prev =>
    with_interimTranscript "" (with_isConnected false (with_isRecording false prev))) w.

(** [clearTranscript()] *)
Definition clearTranscript (w : World) : World :=
  setState (fun prev => with_interimTranscript "" (with_transcript "" prev)) w.

(** [copyToClipboard()]: the world after it, and the text written. *)
Definition copyToClipboard (platform : Platform) (w : World) : World * option string :=
  match clipboard_writeText platform with
  | Normal _ => (w, Some (transcript (state w)))
  | Throw _ => (setState (with_error (Some "Failed to copy to clipboard")) w, None)
  end.

(** The effect that follows a change of [apiKey] or of [isInitialized]. *)
Definition apiKey_effect (apiKey : string) (w : World) : World :=
  if negb (String.eqb apiKey "") && isInitialized (state w)
  then set_deepgramServiceRef (Some (Deepgram.new_DeepgramService apiKey)) w
  else w.

(** The cleanup on unmount. *)
Definition cleanup (w : World) : World :=
  let w := match audioServiceRef w with
           | Some audio => set_audioServiceRef (Some (fst (AudioCapture.dispose audio))) w
           | None => w
           end in
  match deepgramServiceRef w with
  | Some deepgram =>
      let '(deepgram, sockets) := Deepgram.disconnect deepgram (sockets w) in
      set_sockets sockets (set_deepgramServiceRef (Some deepgram) w)
  | None => w
  end.

(** *** Socket events reaching the hook *)

(** An event of socket [i], opened by the service that
    [deepgramServiceRef] holds: the platform moves the socket to its new
    [readyState], the service's callback runs, then the handlers it calls. *)
Inductive SocketEvent : Type :=
| OpenEvent
| MessageEvent (data : Deepgram.MessageData)
| ErrorEvent
| CloseEvent.

Definition transition (ev : SocketEvent) (ws : Deepgram.WebSocket) : Deepgram.WebSocket :=
  let moved st := {| Deepgram.query := Deepgram.query ws;
                     Deepgram.protocols := Deepgram.protocols ws;
                     Deepgram.readyState := st;
                     Deepgram.outbox := Deepgram.outbox ws |} in
  match ev with
  | OpenEvent => moved Deepgram.OPEN
  | CloseEvent => moved Deepgram.CLOSED
  | MessageEvent _ | ErrorEvent => ws
  end.

Definition socket_event `{JsEngine} (platform : Platform) (i : nat) (ev : SocketEvent)
    (w : World) : option World :=
  let w := set_sockets (alter (transition ev) i (sockets w)) w in
  match deepgramServiceRef w with
  | Some deepgram =>
      let '(deepgram, effects) :=
        match ev with
        | OpenEvent => Deepgram.socket_onopen deepgram
        | MessageEvent data =>
            let '(deepgram, m) := Deepgram.socket_onmessage deepgram data in
            (deepgram, Deepgram.trace m)
        | ErrorEvent => Deepgram.socket_onerror deepgram
        | CloseEvent => Deepgram.socket_onclose deepgram
        end in
      run platform effects (set_deepgramServiceRef (Some deepgram) w)
  | None => Some w
  end.

(** The [onTranscript] events of a session, in arrival order. *)
Definition onTranscript_all (results : list Deepgram.TranscriptionResult) (w : World)
  : World :=
  foldl (fun w result => onTranscript result w) w results.


(** *** Audio chunks reaching the hook *)

(** A [dataavailable] event of the recorder of the service that
    [audioServiceRef] holds: the service buffers the chunk and runs the arrow
    function of [onOpen], which hands the blob to
    [deepgramServiceRef.current?.sendAudio]. *)
Definition dataavailable (data : AudioCapture.Blob) (w : World)
  : World * list (Deepgram.Effect Handlers) * bool :=
  match audioServiceRef w with
  | Some audio =>
      let '(audio, callback) := AudioCapture.ondataavailable data audio in
      let w := set_audioServiceRef (Some audio) w in
      match callback, deepgramServiceRef w with
      | Some (forward_to_sendAudio, blob), Some deepgram =>
          let '(sockets, effects, pending) :=
            Deepgram.sendAudio
              (Deepgram.BlobData (AudioCapture.size blob) (AudioCapture.type blob))
              deepgram (sockets w) in
          (set_sockets sockets w, effects, pending)
      | _, _ => (w, [], false)
      end
  | None => (w, [], false)
  end.

(** The bytes of a blob arriving for the service that [deepgramServiceRef]
    holds; an exception of [send] is lost in the promise. *)
Definition arrayBuffer_resolved (buffer : list Byte.byte) (w : World) : World :=
  match deepgramServiceRef w with
  | Some deepgram =>
      match Deepgram.arrayBuffer_then buffer deepgram (sockets w) with
      | Normal sockets => set_sockets sockets w
      | Throw _ => w
      end
  | None => w
  end.

(** *** Everything that can happen to the hook *)

(** The actions, called with any key and in any order, and the events of
    the platform. [OnHandlerCall] is a call on the handlers from a socket of
    a channel that the ref no longer holds. *)
Inductive Action : Type :=
| DoInitialize (apiKey : string) (platform : Platform)
| DoStartRecording (apiKey : string) (platform : Platform)
| DoStopRecording
| DoClearTranscript
| DoCopyToClipboard (platform : Platform)
| DoApiKeyEffect (apiKey : string)
| DoCleanup
| OnSocket (platform : Platform) (i : nat) (ev : SocketEvent)
| OnHandlerCall (platform : Platform) (call : Deepgram.HandlerCall)
| OnDataAvailable (data : AudioCapture.Blob)
| OnArrayBuffer (buffer : list Byte.byte).

Definition step `{JsEngine} (a : Action) (w : World) : option World :=
  match a with
  | DoInitialize apiKey platform => Some (initialize apiKey platform w)
  | DoStartRecording apiKey platform => startRecording apiKey platform w
  | DoStopRecording => Some (stopRecording w)
  | DoClearTranscript => Some (clearTranscript w)
  | DoCopyToClipboard platform => Some (fst (copyToClipboard platform w))
  | DoApiKeyEffect apiKey => Some (apiKey_effect apiKey w)
  | DoCleanup => Some (cleanup w)
  | OnSocket platform i ev => socket_event platform i ev w
  | OnHandlerCall platform call => deliver platform call w
  | OnDataAvailable data => Some (fst (fst (dataavailable data w)))
  | OnArrayBuffer buffer => Some (arrayBuffer_resolved buffer w)
  end.

Fixpoint steps `{JsEngine} (actions : list Action) (w : World) : option World :=
  match actions with
  | [] => Some w
  | a :: rest => w ← step a w; steps rest w
  end.

End Hook.

(** ** App.tsx *)

Module App.

(** The component's own state, [apiKey], beside the world of the hook it
    renders. *)
Record AppState : Type := {
  apiKey : string;
  voice : Hook.World
}.

(** The initial [apiKey]. [DEEPGRAM_API_KEY] is the constant of [config.ts],
    which each installation edits. *)
Definition initial_apiKey (DEEPGRAM_API_KEY : string) : string :=
  if String.eqb DEEPGRAM_API_KEY "YOUR_API_KEY_HERE" then "" else DEEPGRAM_API_KEY.

Definition mount (DEEPGRAM_API_KEY : string) : AppState :=
  {| apiKey := initial_apiKey DEEPGRAM_API_KEY; voice := Hook.initial_world |}.

(** The render that follows a handler: the hook's effect on
    [[apiKey, state.isInitialized]] runs when one of the two has changed. *)
Definition rendered (before after : AppState) : AppState :=
  if String.eqb (apiKey before) (apiKey after)
     && Bool.eqb (Hook.isInitialized (Hook.state (voice before)))
                 (Hook.isInitialized (Hook.state (voice after)))
  then after
  else {| apiKey := apiKey after;
          voice := Hook.apiKey_effect (apiKey after) (voice after) |}.

(** [handleRecordStart] *)
Definition handleRecordStart (platform : Hook.Platform) (a : AppState) : option AppState :=
  if Hook.isInitialized (Hook.state (voice a))
     && negb (String.eqb (apiKey a) "")
     && negb (Hook.isRecording (Hook.state (voice a)))
  then w ← Hook.startRecording (apiKey a) platform (voice a);
       Some {| apiKey := apiKey a; voice := w |}
  else Some a.

(** [handleRecordStop] *)
Definition handleRecordStop (a : AppState) : AppState :=
  if Hook.isRecording (Hook.state (voice a))
  then {| apiKey := apiKey a; voice := Hook.stopRecording (voice a) |}
  else a.

(** [handleInitialize] *)
Definition handleInitialize (platform : Hook.Platform) (a : AppState) : AppState :=
  {| apiKey := apiKey a; voice := Hook.initialize (apiKey a) platform (voice a) |}.

(** What the user and the platform do to the mounted component: each
    handler can be called at any time, whatever the buttons show. *)
Inductive Event : Type :=
| KeyChanged (value : string)
| InitializeClicked (platform : Hook.Platform)
| RecordPressed (platform : Hook.Platform)
| RecordReleased
| CopyClicked (platform : Hook.Platform)
| ClearClicked
| Platform (action : Hook.Action).

(** The events of the platform among the actions of the hook. *)
Definition is_platform_event (action : Hook.Action) : bool :=
  match action with
  | Hook.OnSocket _ _ _ | Hook.OnHandlerCall _ _
  | Hook.OnDataAvailable _ | Hook.OnArrayBuffer _ => true
  | _ => false
  end.

Definition handle `{JsEngine} (ev : Event) (a : AppState) : option AppState :=
  match ev with
  | KeyChanged value => Some {| apiKey := value; voice := voice a |}
  | InitializeClicked platform => Some (handleInitialize platform a)
  | RecordPressed platform => handleRecordStart platform a
  | RecordReleased => Some (handleRecordStop a)
  | CopyClicked platform =>
      Some {| apiKey := apiKey a; voice := fst (Hook.copyToClipboard platform (voice a)) |}
  | ClearClicked => Some {| apiKey := apiKey a; voice := Hook.clearTranscript (voice a) |}
  | Platform action =>
      if is_platform_event action
      then w ← Hook.step action (voice a); Some {| apiKey := apiKey a; voice := w |}
      else None
  end.

Definition step `{JsEngine} (ev : Event) (a : AppState) : option AppState :=
  rendered a <$> handle ev a.

Fixpoint steps `{JsEngine} (events : list Event) (a : AppState) : option AppState :=
  match events with
  | [] => Some a
  | ev :: rest => a ← step ev a; steps rest a
  end.

End App.

(** ** components/StatusIndicator.tsx and components/TranscriptDisplay.tsx *)

Module Components.

Record Status : Type := { label : string; color : string }.

(** A string as a JavaScript condition. *)
Definition nonempty (s : string) : bool := negb (String.eqb s "").

Definition shown (error : option string) : bool :=
  match error with
  | Some message => nonempty message
  | None => false
  end.

(** [getStatus()] of [StatusIndicator] *)
Definition getStatus (isInitialized isConnected isRecording : bool)
    (error : option string) : Status :=
  if shown error then {| label := "Error"; color := "error" |}
  else if isRecording then {| label := "Recording"; color := "recording" |}
  else if isConnected then {| label := "Connected"; color := "connected" |}
  else if isInitialized then {| label := "Ready"; color := "ready" |}
  else {| label := "Not Initialized"; color := "idle" |}.

(** The paragraph [{error && <p className="error-message">...}]. *)
Definition error_message (error : option string) : option string :=
  if shown error then error else None.

Definition status_of (s : Hook.VoiceToTextState) : Status :=
  getStatus (Hook.isInitialized s) (Hook.isConnected s) (Hook.isRecording s) (Hook.error s).

(** What [TranscriptDisplay] renders of its props. *)
Record Display : Type := {
  body : option (string * option string);
  copy_disabled : bool;
  clear_disabled : bool
}.

Definition TranscriptDisplay (transcript interimTranscript : string) : Display :=
  let hasContent := nonempty transcript || nonempty interimTranscript in
  {| body := if hasContent
             then Some (transcript,
                        if nonempty interimTranscript then Some interimTranscript else None)
             else None;
     copy_disabled := negb (nonempty transcript);
     clear_disabled := negb hasContent |}.

Definition display_of (s : Hook.VoiceToTextState) : Display :=
  TranscriptDisplay (Hook.transcript s) (Hook.interimTranscript s).

End Components.

(** ** The vocabulary of the properties *)

(** The fragments of the final-flagged results, in arrival order. *)
Definition final_fragments (results : list Deepgram.TranscriptionResult) : list string :=
  Deepgram.transcript <$> filter (fun r => Deepgram.isFinal r = true) results.

(** One step of the merge on the accumulated transcript alone. *)
Definition append_fragment (acc fragment : string) : string :=
  if String.eqb acc "" then fragment else acc +:+ " " +:+ fragment.

(** [d.channel?.alternatives] *)
Definition alternatives_of (d : json) : jsval := get_opt "alternatives" (own "channel" d).

(** [alternatives] lists at least one alternative, of which [a] is the
    first: an array with a first element, or an object that passes for one,
    with a positive [length] and a member ["0"]. *)
Inductive first_alternative `{JsEngine} : jsval -> json -> Prop :=
| first_of_array a rest : first_alternative (Some (JArr (a :: rest))) a
| first_of_array_like members l a :
    assoc "length" members = Some l ->
    gt_zero (LenMember l) = Normal true ->
    assoc "0" members = Some a ->
    first_alternative (Some (JObj members)) a.

(** A frame of kind "Results" with at least one alternative, the first one
    [a], and a non-empty transcript fragment in it. On a string, being
    non-empty is what [truthy] tests. *)
Definition text_frame `{JsEngine} (d a : json) : Prop :=
  own "type" d = Some (JStr "Results") /\
  first_alternative (alternatives_of d) a /\
  truthy (own "transcript" a) = true.

(** The result object made from such a frame. *)
Definition result_of (d a : json) : Deepgram.ResultObject :=
  {| Deepgram.transcript_value := or_else (own "transcript" a) (JStr "");
     Deepgram.isFinal_value := or_else (own "is_final" d) (JBool false);
     Deepgram.confidence_value := or_else (own "confidence" a) (JNum 0%float);
     Deepgram.words_value := own "words" a |}.

(** The message that a frame provides: its [message] member when that is a
    non-empty string, the text the engine converts it to when it is another
    value that passes the test [data.message || ...], and the fallback
    "Deepgram error" when the member is missing or fails that test. *)
Inductive provided_message `{JsEngine} (d : json) : string -> Prop :=
| message_string s :
    own "message" d = Some (JStr s) -> s <> "" -> provided_message d s
| message_converted v s :
    own "message" d = Some v -> truthy (Some v) = true ->
    (forall t, v <> JStr t) -> coerced_to_string v = Normal s ->
    provided_message d s
| message_fallback :
    truthy (own "message" d) = false -> provided_message d "Deepgram error".

(** A frame of kind "Error" providing the message [s]. *)
Definition error_frame `{JsEngine} (d : json) (s : string) : Prop :=
  own "type" d = Some (JStr "Error") /\ provided_message d s.

(** The handler calls among the effects of the channel. *)
Definition handler_calls {Handlers} (effects : list (Deepgram.Effect Handlers))
  : list Deepgram.HandlerCall :=
  omap (fun e => match e with
                 | Deepgram.Invoke _ call => Some call
                 | Deepgram.Console _ _ => None
                 end) effects.

(** The connections of the store that are opening or open. *)
Definition live (ws : Deepgram.WebSocket) : bool :=
  match Deepgram.readyState ws with
  | Deepgram.CONNECTING | Deepgram.OPEN => true
  | _ => false
  end.

Definition live_count (sockets : list Deepgram.WebSocket) : nat :=
  length (filter (fun ws => live ws = true) sockets).

(** Calls of [connect] one after the other. *)
Fixpoint connect_all {Handlers} (attempts : list (Handlers * completion unit))
    (this : Deepgram.DeepgramService Handlers) (sockets : list Deepgram.WebSocket)
  : Deepgram.DeepgramService Handlers * list Deepgram.WebSocket
    * list (Deepgram.Effect Handlers) :=
  match attempts with
  | [] => (this, sockets, [])
  | (h, ctor) :: rest =>
      let '(this, sockets, effects) := Deepgram.connect h ctor this sockets in
      let '(this, sockets, effects') := connect_all rest this sockets in
      (this, sockets, effects ++ effects')
  end.

(** The socket that [connect] opens for a channel configured with [c]. *)
Definition opening (c : Deepgram.DeepgramConfig) : Deepgram.WebSocket :=
  {| Deepgram.query := [("model", Deepgram.model c);
                        ("language", Deepgram.language c);
                        ("punctuate", Deepgram.String_of_bool (Deepgram.punctuate c));
                        ("interim_results",
                         Deepgram.String_of_bool (Deepgram.interimResults c))];
     Deepgram.protocols := ["token"; Deepgram.apiKey c];
     Deepgram.readyState := Deepgram.CONNECTING;
     Deepgram.outbox := [] |}.



(** An audio service whose [initialize] has succeeded. *)
Definition initialized {Callback} (this : AudioCapture.AudioCaptureService Callback) : Prop :=
  is_Some (AudioCapture.mediaStream this) /\ is_Some (AudioCapture.audioContext this).

(** The streaming state of the coordinator. *)
Definition streaming (s : Hook.VoiceToTextState) : Prop :=
  Hook.isRecording s = true /\ Hook.isConnected s = true.

(** *** Concrete engines, platforms and worlds for the examples *)

(** An engine that refuses both coercions; the examples run on frames that
    reach neither. *)
Definition refusing_engine : JsEngine :=
  {| coerced_gt_zero := fun _ => Throw TypeError;
     coerced_to_string := fun _ => Throw TypeError |}.

(** A platform that grants everything, handing out stream [s] and context [c]. *)
Definition granting (s : AudioCapture.MediaStream) (c : AudioCapture.AudioContext)
  : Hook.Platform :=
  {| Hook.new_WebSocket := Normal tt;
     Hook.recorder := {| AudioCapture.new_MediaRecorder := Normal tt;
                         AudioCapture.start := Normal tt |};
     Hook.capture := {| AudioCapture.mediaDevices := AudioCapture.GetUserMedia (Normal s);
                        AudioCapture.new_AudioContext := Normal c |};
     Hook.permissions_query := Normal AudioCapture.granted;
     Hook.clipboard_writeText := Normal tt |}.

(** A platform on which the microphone prompt is denied. *)
Definition denying : Hook.Platform :=
  {| Hook.new_WebSocket := Normal tt;
     Hook.recorder := {| AudioCapture.new_MediaRecorder := Normal tt;
                         AudioCapture.start := Normal tt |};
     Hook.capture :=
       {| AudioCapture.mediaDevices :=
            AudioCapture.GetUserMedia (Throw (DOMException "NotAllowedError" "Permission denied"));
          AudioCapture.new_AudioContext := Normal 0 |};
     Hook.permissions_query := Normal AudioCapture.denied;
     Hook.clipboard_writeText := Normal tt |}.

Definition interim_result (t : string) : Deepgram.TranscriptionResult :=
  {| Deepgram.transcript := t; Deepgram.isFinal := false;
     Deepgram.confidence := JNum 0%float; Deepgram.words := undefined |}.

Definition final_result (t : string) : Deepgram.TranscriptionResult :=
  {| Deepgram.transcript := t; Deepgram.isFinal := true;
     Deepgram.confidence := JNum 0%float; Deepgram.words := undefined |}.

(** A frame [{"type":"Results", ..., "channel":{"alternatives":[{"transcript": t}]}}]
    with the members [top] next to [type]. *)
Definition results_frame (top : list (string * json)) (t : string) : json :=
  JObj (("type", JStr "Results") :: top ++
        [("channel", JObj [("alternatives", JArr [JObj [("transcript", JStr t)]])])]).

(** The session up to the first interim result: initialize with a key, hold
    the button, the socket opens, the interim result "hel" arrives. *)
Definition session_to_interim : option Hook.World :=
  let engine := refusing_engine in
  let platform := granting 1 1 in
  w ← Hook.startRecording "key" platform (Hook.initialize "key" platform Hook.initial_world);
  w ← Hook.socket_event platform 0 Hook.OpenEvent w;
  Hook.socket_event platform 0
    (Hook.MessageEvent (Deepgram.Parses (results_frame [] "hel"))) w.

(** The session that ends in an unexpected close: initialize with a key,
    hold the button, the socket opens, an interim result "hel" arrives, the
    remote end closes. *)
Definition closed_by_remote : option Hook.World :=
  w ← session_to_interim;
  Hook.socket_event (H := refusing_engine) (granting 1 1) 0 Hook.CloseEvent w.

(** The state that session ends in; [while_streaming] below is the state
    just before the close. *)
Definition after_remote_close : Hook.World :=
  {| Hook.state :=
       {| Hook.isRecording := false; Hook.isConnected := false;
          Hook.isInitialized := true; Hook.transcript := "";
          Hook.interimTranscript := "hel"; Hook.error := None;
          Hook.permissionStatus := Some AudioCapture.granted |};
     Hook.audioServiceRef :=
       Some {| AudioCapture.mediaStream := Some 1; AudioCapture.audioContext := Some 1;
               AudioCapture.mediaRecorder :=
                 Some {| AudioCapture.stream := 1; AudioCapture.state := AudioCapture.recording |};
               AudioCapture.audioChunks := [];
               AudioCapture.onDataCallback := Some Hook.forward_to_sendAudio |};
     Hook.deepgramServiceRef :=
       Some {| Deepgram.socket := Some 0;
               Deepgram.config :=
                 Deepgram.config (@Deepgram.new_DeepgramService Hook.Handlers "key");
               Deepgram.handlers := Some Hook.handlers_of_startRecording;
               Deepgram.isConnected := false |};
     Hook.sockets :=
       [{| Deepgram.query := [("model", "nova-2"); ("language", "en");
                              ("punctuate", "true"); ("interim_results", "true")];
           Deepgram.protocols := ["token"; "key"];
           Deepgram.readyState := Deepgram.CLOSED;
           Deepgram.outbox := [] |}] |}.

Definition while_streaming : Hook.World :=
  {| Hook.state :=
       {| Hook.isRecording := true; Hook.isConnected := true;
          Hook.isInitialized := true; Hook.transcript := "";
          Hook.interimTranscript := "hel"; Hook.error := None;
          Hook.permissionStatus := Some AudioCapture.granted |};
     Hook.audioServiceRef := Hook.audioServiceRef after_remote_close;
     Hook.deepgramServiceRef :=
       Some {| Deepgram.socket := Some 0;
               Deepgram.config :=
                 Deepgram.config (@Deepgram.new_DeepgramService Hook.Handlers "key");
               Deepgram.handlers := Some Hook.handlers_of_startRecording;
               Deepgram.isConnected := true |};
     Hook.sockets := Hook.transition Hook.OpenEvent <$> Hook.sockets after_remote_close |}.

(** The session in which the button is pressed a second time before the
    first socket has opened (the release in between stops nothing:
    [isRecording] is still false, so [App] does not call [stopRecording]),
    and both sockets open afterwards. *)
Definition pressed_twice_before_open : option Hook.World :=
  let engine := refusing_engine in
  let platform := granting 1 1 in
  w ← Hook.startRecording "key" platform (Hook.initialize "key" platform Hook.initial_world);
  w ← Hook.startRecording "key" platform w;
  w ← Hook.socket_event platform 0 Hook.OpenEvent w;
  Hook.socket_event platform 1 Hook.OpenEvent w.

(** *** Vocabulary of the further properties *)

(** What every state of the hook satisfies: recording is never shown
    without a connection, an initialized hook holds an audio service, a
    recorder that runs has its stream, and the channel's socket is one of
    the store. *)
Definition consistent (w : Hook.World) : Prop :=
  (Hook.isRecording (Hook.state w) = true -> Hook.isConnected (Hook.state w) = true) /\
  (Hook.isInitialized (Hook.state w) = true -> is_Some (Hook.audioServiceRef w)) /\
  (forall audio, Hook.audioServiceRef w = Some audio ->
     AudioCapture.isRecording audio = true -> is_Some (AudioCapture.mediaStream audio)) /\
  (forall deepgram i, Hook.deepgramServiceRef w = Some deepgram ->
     Deepgram.socket deepgram = Some i -> i < length (Hook.sockets w)).

(** The [dataavailable] events of a recorder, one after the other, with the
    callbacks they run. *)
Fixpoint ondataavailable_all {Callback} (events : list AudioCapture.Blob)
    (this : AudioCapture.AudioCaptureService Callback)
  : AudioCapture.AudioCaptureService Callback * list (Callback * AudioCapture.Blob) :=
  match events with
  | [] => (this, [])
  | data :: rest =>
      let '(this, call) := AudioCapture.ondataavailable data this in
      let '(this, calls) := ondataavailable_all rest this in
      (this, option_list call ++ calls)
  end.

(** The chunks that carry data. *)
Definition nonempty_chunks (events : list AudioCapture.Blob) : list AudioCapture.Blob :=
  filter (fun b => 0 < AudioCapture.size b) events.

(** [sendAudio] on array buffers, one after the other. *)
Fixpoint sendAudio_all {Handlers} (buffers : list (list Byte.byte))
    (this : Deepgram.DeepgramService Handlers) (sockets : list Deepgram.WebSocket)
  : list Deepgram.WebSocket :=
  match buffers with
  | [] => sockets
  | bytes :: rest =>
      sendAudio_all rest this
        (fst (fst (Deepgram.sendAudio (Deepgram.BufferData bytes) this sockets)))
  end.

(** The control frame that ends a stream. *)
Definition CloseStream : Deepgram.Frame :=
  Deepgram.TextFrame (JObj [("type", JStr "CloseStream")]).

(** The actions that clear [error]. *)
Definition clears_error (a : Hook.Action) : bool :=
  match a with
  | Hook.DoInitialize _ _ | Hook.DoStartRecording _ _ => true
  | _ => false
  end.

(** A platform on which [new WebSocket] throws [e], everything else granted. *)
Definition refusing_sockets (e : Thrown) : Hook.Platform :=
  {| Hook.new_WebSocket := Throw e;
     Hook.recorder := Hook.recorder (granting 1 1);
     Hook.capture := Hook.capture (granting 1 1);
     Hook.permissions_query := Normal AudioCapture.granted;
     Hook.clipboard_writeText := Normal tt |}.

(** A platform that grants the microphone and has no working recorder or
    clipboard. *)
Definition without_recorder : Hook.Platform :=
  {| Hook.new_WebSocket := Normal tt;
     Hook.recorder := {| AudioCapture.new_MediaRecorder := Throw NonError;
                         AudioCapture.start := Normal tt |};
     Hook.capture := Hook.capture (granting 1 1);
     Hook.permissions_query := Normal AudioCapture.granted;
     Hook.clipboard_writeText := Throw NonError |}.

(** The action that empties the accumulated transcript. *)
Definition clears_transcript (a : Hook.Action) : bool :=
  match a with
  | Hook.DoClearTranscript => true
  | _ => false
  end.

(** The session of [session_to_interim] as actions and events of the hook,
    followed by two chunks of audio and the release of the button. *)
Definition session_actions : list Hook.Action :=
  let platform := granting 1 1 in
  [Hook.DoInitialize "key" platform;
   Hook.DoStartRecording "key" platform;
   Hook.OnSocket platform 0 Hook.OpenEvent;
   Hook.OnSocket platform 0 (Hook.MessageEvent (Deepgram.Parses (results_frame [] "hel")));
   Hook.OnDataAvailable {| AudioCapture.size := 3; AudioCapture.type := "audio/webm" |};
   Hook.OnArrayBuffer [];
   Hook.DoStopRecording].



(** ** Properties *)

(** *** Merging results into the transcript *)

Lemma append_assoc (a b c : string) : (a +:+ b) +:+ c = a +:+ (b +:+ c).
Proof.
  induction a as [|x a IH]; [reflexivity|].
  change (String x ((a +:+ b) +:+ c) = String x (a +:+ (b +:+ c))).
  by rewrite IH.
Qed.

Lemma append_nonempty_r (a b : string) : b <> "" -> a +:+ b <> "".
Proof. destruct a; [done | discriminate]. Qed.

Lemma append_fragment_nonempty acc f : f <> "" -> append_fragment acc f <> "".
Proof.
  intros Hf. unfold append_fragment.
  destruct (String.eqb_spec acc "") as [->|Hacc]; [done|].
  by apply append_nonempty_r, append_nonempty_r.
Qed.

Lemma onTranscript_all_state results w :
  Hook.state (Hook.onTranscript_all results w)
  = foldl (fun s r => Hook.merge_transcript r s) (Hook.state w) results.
Proof.
  revert w. induction results as [|r results IH]; intros w; simpl; [done|].
  by rewrite IH.
Qed.

Lemma merge_all_transcript results s :
  Hook.transcript (foldl (fun s r => Hook.merge_transcript r s) s results)
  = foldl append_fragment (Hook.transcript s) (final_fragments results).
Proof.
  revert s. induction results as [|r results IH]; intros s; [done|].
  simpl. rewrite IH. unfold final_fragments.
  rewrite filter_cons. unfold Hook.merge_transcript.
  destruct (Deepgram.isFinal r) eqn:Hr.
  - rewrite decide_True by done. reflexivity.
  - rewrite decide_False by done. reflexivity.
Qed.

Lemma foldl_append_fragment fragments : forall acc,
  acc <> "" -> Forall (fun f => f <> "") fragments ->
  foldl append_fragment acc fragments
  = match fragments with
    | [] => acc
    | _ => acc +:+ " " +:+ String.concat " " fragments
    end.
Proof.
  induction fragments as [|f fragments IH]; intros acc Hacc Hall; [done|].
  inversion_clear Hall as [|? ? Hf Hrest]. simpl foldl.
  rewrite IH; [|by apply append_fragment_nonempty|done].
  unfold append_fragment. rewrite (proj2 (String.eqb_neq acc "")) by done.
  destruct fragments as [|g fragments]; [done|].
  change (String.concat " " (f :: g :: fragments))
    with (f +:+ " " +:+ String.concat " " (g :: fragments)).
  by rewrite !append_assoc.
Qed.

Lemma foldl_append_fragment_empty fragments :
  Forall (fun f => f <> "") fragments ->
  foldl append_fragment "" fragments = String.concat " " fragments.
Proof.
  destruct fragments as [|f fragments]; intros Hall; [done|].
  inversion_clear Hall as [|? ? Hf Hrest]. simpl foldl.
  change (append_fragment "" f) with f.
  rewrite foldl_append_fragment by done.
  by destruct fragments.
Qed.

(** C1. Starting from an empty accumulated transcript, after any sequence
    of [onTranscript] events whose final-flagged results carry non-empty
    fragments, the accumulated transcript is those fragments, in arrival
    order, joined by single spaces; the interim-flagged events in between
    play no part. *)
Theorem transcript_is_final_fragments_joined
    (results : list Deepgram.TranscriptionResult) (w : Hook.World) :
  Hook.transcript (Hook.state w) = "" ->
  (forall r, r ∈ results -> Deepgram.isFinal r = true -> Deepgram.transcript r <> "") ->
  Hook.transcript (Hook.state (Hook.onTranscript_all results w))
  = String.concat " " (final_fragments results).
Proof.
  intros Hempty Hfinal.
  rewrite onTranscript_all_state, merge_all_transcript, Hempty.
  apply foldl_append_fragment_empty.
  unfold final_fragments. apply Forall_fmap, Forall_forall.
  intros r [Hr Hin]%list_elem_of_filter. by apply Hfinal.
Qed.

Lemma transcript_is_final_fragments_joined_witness :
  Hook.transcript
    (Hook.state
       (Hook.onTranscript_all
          [interim_result "hel"; final_result "hello"; interim_result "wor";
           interim_result ""; final_result "world"]
          Hook.initial_world))
  = "hello world".
Proof.
  apply (transcript_is_final_fragments_joined
           [interim_result "hel"; final_result "hello"; interim_result "wor";
            interim_result ""; final_result "world"]
           Hook.initial_world).
  - reflexivity.
  - intros r Hin Hr.
    repeat (apply elem_of_cons in Hin as [->|Hin]; [try discriminate Hr; discriminate|]).
    by apply elem_of_nil in Hin.
Defined.

(** C3. An [onTranscript] event whose finality flag is false replaces the
    interim transcript by the event's fragment, whatever the interim
    transcript was, and leaves the accumulated transcript as it is; an event
    whose finality flag is true empties the interim transcript. *)
Theorem onTranscript_interim_replaced_final_cleared
    (result : Deepgram.TranscriptionResult) (w : Hook.World) :
  (Deepgram.isFinal result = false ->
     Hook.interimTranscript (Hook.state (Hook.onTranscript result w))
       = Deepgram.transcript result /\
     Hook.transcript (Hook.state (Hook.onTranscript result w))
       = Hook.transcript (Hook.state w)) /\
  (Deepgram.isFinal result = true ->
     Hook.interimTranscript (Hook.state (Hook.onTranscript result w)) = "").
Proof.
  unfold Hook.onTranscript, Hook.setState, Hook.merge_transcript; simpl.
  split; intros ->; simpl; auto.
Qed.

Lemma onTranscript_interim_replaced_final_cleared_witness :
  let w := Hook.onTranscript (interim_result "hel") Hook.initial_world in
  (Hook.interimTranscript (Hook.state (Hook.onTranscript (interim_result "hello") w)) = "hello" /\
   Hook.transcript (Hook.state (Hook.onTranscript (interim_result "hello") w)) = "") /\
  Hook.interimTranscript (Hook.state (Hook.onTranscript (final_result "hello") w)) = "".
Proof.
  split.
  - apply (onTranscript_interim_replaced_final_cleared (interim_result "hello")
             (Hook.onTranscript (interim_result "hel") Hook.initial_world)).
    reflexivity.
  - apply (onTranscript_interim_replaced_final_cleared (final_result "hello")
             (Hook.onTranscript (interim_result "hel") Hook.initial_world)).
    reflexivity.
Defined.

(** C4. Whatever the state, an [onError] event from the channel leaves
    [isRecording] and [isConnected] false and [error] set to the error's
    message; the accumulated transcript, and every other field, refs and
    sockets included, stay as they were. *)
Theorem onError_faults_and_keeps_transcript
    (platform : Hook.Platform) (message : string) (w : Hook.World) :
  exists w',
    Hook.deliver platform (Deepgram.OnError message) w = Some w' /\
    Hook.isRecording (Hook.state w') = false /\
    Hook.isConnected (Hook.state w') = false /\
    Hook.error (Hook.state w') = Some message /\
    Hook.transcript (Hook.state w') = Hook.transcript (Hook.state w) /\
    Hook.interimTranscript (Hook.state w') = Hook.interimTranscript (Hook.state w) /\
    Hook.isInitialized (Hook.state w') = Hook.isInitialized (Hook.state w) /\
    Hook.permissionStatus (Hook.state w') = Hook.permissionStatus (Hook.state w) /\
    Hook.audioServiceRef w' = Hook.audioServiceRef w /\
    Hook.deepgramServiceRef w' = Hook.deepgramServiceRef w /\
    Hook.sockets w' = Hook.sockets w.
Proof. exists (Hook.onError message w). by repeat split. Qed.

(** C5. In a streaming state whose [error] is null, an [onClose] event
    that no [stopRecording] asked for leaves [isRecording] and [isConnected]
    false and [error] null. *)
Theorem onClose_is_not_a_fault (platform : Hook.Platform) (w : Hook.World) :
  streaming (Hook.state w) ->
  Hook.error (Hook.state w) = None ->
  exists w',
    Hook.deliver platform Deepgram.OnClose w = Some w' /\
    Hook.isRecording (Hook.state w') = false /\
    Hook.isConnected (Hook.state w') = false /\
    Hook.error (Hook.state w') = None.
Proof.
  intros _ Herror. exists (Hook.onClose w). by repeat split.
Qed.

Lemma session_reaches_streaming : session_to_interim = Some while_streaming.
Proof. reflexivity. Qed.

Lemma session_closed_by_remote : closed_by_remote = Some after_remote_close.
Proof. reflexivity. Qed.

Lemma onClose_is_not_a_fault_witness :
  exists w',
    Hook.deliver (granting 1 1) Deepgram.OnClose while_streaming = Some w' /\
    Hook.isRecording (Hook.state w') = false /\
    Hook.isConnected (Hook.state w') = false /\
    Hook.error (Hook.state w') = None.
Proof.
  apply (onClose_is_not_a_fault (granting 1 1) while_streaming).
  - split; reflexivity.
  - reflexivity.
Defined.

(** *** Starting without a credential *)

(** C2, as stated, fails: [startRecording] tests the two refs before the
    key. With no credential set it answers with the message of that first
    guard, both before any [initialize] and after an [initialize] that,
    having no key, constructed no channel. *)
Lemma startRecording_without_key_reports_services :
  (exists w',
     Hook.startRecording "" (granting 1 1) Hook.initial_world = Some w' /\
     Hook.error (Hook.state w')
       = Some "Services not initialized. Please initialize first." /\
     Hook.error (Hook.state w') <> Some "Deepgram API key is required.") /\
  (let w := Hook.initialize "" (granting 1 1) Hook.initial_world in
   Hook.isInitialized (Hook.state w) = true /\
   Hook.deepgramServiceRef w = None /\
   exists w',
     Hook.startRecording "" (granting 1 1) w = Some w' /\
     Hook.error (Hook.state w')
       = Some "Services not initialized. Please initialize first." /\
     Hook.error (Hook.state w') <> Some "Deepgram API key is required.").
Proof.
  split; [|split; [reflexivity|split; [reflexivity|]]];
    (eexists; split; [reflexivity|]; split; [reflexivity|discriminate]).
Qed.

(** C2, amended. With no credential set, [startRecording] is rejected
    without starting: no socket is opened, both refs and every field but
    [error] keep their values, [isRecording] among them. [error] becomes
    "Deepgram API key is required." when the audio service and the channel
    have both been constructed, and "Services not initialized. Please
    initialize first." when either is missing. *)
Theorem startRecording_without_key_rejected (platform : Hook.Platform) (w : Hook.World) :
  exists w',
    Hook.startRecording "" platform w = Some w' /\
    (is_Some (Hook.audioServiceRef w) /\ is_Some (Hook.deepgramServiceRef w) ->
       Hook.error (Hook.state w') = Some "Deepgram API key is required.") /\
    (Hook.audioServiceRef w = None \/ Hook.deepgramServiceRef w = None ->
       Hook.error (Hook.state w')
         = Some "Services not initialized. Please initialize first.") /\
    Hook.isRecording (Hook.state w') = Hook.isRecording (Hook.state w) /\
    Hook.isConnected (Hook.state w') = Hook.isConnected (Hook.state w) /\
    Hook.isInitialized (Hook.state w') = Hook.isInitialized (Hook.state w) /\
    Hook.transcript (Hook.state w') = Hook.transcript (Hook.state w) /\
    Hook.interimTranscript (Hook.state w') = Hook.interimTranscript (Hook.state w) /\
    Hook.permissionStatus (Hook.state w') = Hook.permissionStatus (Hook.state w) /\
    Hook.audioServiceRef w' = Hook.audioServiceRef w /\
    Hook.deepgramServiceRef w' = Hook.deepgramServiceRef w /\
    Hook.sockets w' = Hook.sockets w.
Proof.
  unfold Hook.startRecording.
  destruct (Hook.audioServiceRef w) as [audio|] eqn:Haudio,
           (Hook.deepgramServiceRef w) as [deepgram|] eqn:Hdeepgram;
    simpl; eexists; (split; [reflexivity|]); simpl;
    repeat split; try done.
  all: try (intros [[? [=]] [? [=]]]; fail).
  all: try (intros [[=]|[=]]; fail).
  all: intros [[? ?] [? ?]]; discriminate.
Qed.

Lemma startRecording_without_key_rejected_witness :
  let w := Hook.initialize "key" (granting 1 1) Hook.initial_world in
  exists w',
    Hook.startRecording "" (granting 1 1) w = Some w' /\
    Hook.error (Hook.state w') = Some "Deepgram API key is required." /\
    Hook.isRecording (Hook.state w') = false /\
    Hook.sockets w' = [].
Proof.
  intros w.
  destruct (startRecording_without_key_rejected (granting 1 1) w)
    as (w' & Hstart & Hkey & _ & Hrecording & _ & _ & _ & _ & _ & _ & _ & Hsockets).
  exists w'. split; [exact Hstart|]. split; [|split].
  - apply Hkey. split; by eexists.
  - exact Hrecording.
  - exact Hsockets.
Defined.

(** *** Stopping and disconnecting when idle *)

(** C7, as stated, fails for the coordinator: after an unexpected close the
    state is not recording and still shows the interim fragment "hel";
    [stopRecording] then empties it, which is a change beyond the two
    flags. *)
Lemma stopRecording_when_not_recording_clears_interim :
  closed_by_remote = Some after_remote_close /\
  Hook.isRecording (Hook.state after_remote_close) = false /\
  Hook.isConnected (Hook.state after_remote_close) = false /\
  Hook.interimTranscript (Hook.state after_remote_close) = "hel" /\
  Hook.interimTranscript (Hook.state (Hook.stopRecording after_remote_close)) = "" /\
  Hook.state (Hook.stopRecording after_remote_close)
    <> Hook.with_isConnected false
         (Hook.with_isRecording false (Hook.state after_remote_close)).
Proof. repeat split; discriminate. Qed.

Lemma set_isConnected_same {Handlers} (this : Deepgram.DeepgramService Handlers) :
  Deepgram.isConnected this = false -> Deepgram.set_isConnected false this = this.
Proof. destruct this; simpl; by intros ->. Qed.

(** C7, amended. The coordinator's [stopRecording], called when not
    recording, leaves the state snapshot unchanged except that
    [isRecording] and [isConnected] are false and the interim transcript is
    empty. The channel's [disconnect], called when the channel holds no
    socket, leaves the channel and the sockets unchanged except that
    [isConnected] is false; it changes nothing at all when the flag was
    false already. *)
Theorem stop_and_disconnect_when_idle :
  (forall w : Hook.World,
     Hook.isRecording (Hook.state w) = false ->
     let s' := Hook.state (Hook.stopRecording w) in
     Hook.isRecording s' = false /\
     Hook.isConnected s' = false /\
     Hook.interimTranscript s' = "" /\
     Hook.isInitialized s' = Hook.isInitialized (Hook.state w) /\
     Hook.transcript s' = Hook.transcript (Hook.state w) /\
     Hook.error s' = Hook.error (Hook.state w) /\
     Hook.permissionStatus s' = Hook.permissionStatus (Hook.state w)) /\
  (forall Handlers (this : Deepgram.DeepgramService Handlers) sockets,
     Deepgram.socket this = None ->
     Deepgram.disconnect this sockets = (Deepgram.set_isConnected false this, sockets) /\
     (Deepgram.isConnected this = false ->
      Deepgram.disconnect this sockets = (this, sockets))).
Proof.
  split.
  - intros w _. unfold Hook.stopRecording.
    destruct (Hook.audioServiceRef w) as [audio|] eqn:Haudio; simpl.
    + rewrite ?Haudio.
      destruct (Hook.deepgramServiceRef w) as [deepgram|]; simpl;
        [destruct (Deepgram.disconnect deepgram (Hook.sockets w))|]; by repeat split.
    + destruct (Hook.deepgramServiceRef w) as [deepgram|]; simpl;
        [destruct (Deepgram.disconnect deepgram (Hook.sockets w))|]; by repeat split.
  - intros Handlers this sockets Hsocket. unfold Deepgram.disconnect.
    rewrite Hsocket. split; [done|].
    intros Hflag. by rewrite set_isConnected_same.
Qed.

Lemma stop_and_disconnect_when_idle_witness :
  (let s' := Hook.state (Hook.stopRecording after_remote_close) in
   Hook.isRecording s' = false /\
   Hook.isConnected s' = false /\
   Hook.interimTranscript s' = "" /\
   Hook.isInitialized s' = true /\
   Hook.transcript s' = "" /\
   Hook.error s' = None /\
   Hook.permissionStatus s' = Some AudioCapture.granted) /\
  Deepgram.disconnect (@Deepgram.new_DeepgramService Hook.Handlers "key") []
  = (Deepgram.new_DeepgramService "key", []).
Proof.
  destruct stop_and_disconnect_when_idle as [Hstop Hdisconnect]. split.
  - exact (Hstop after_remote_close eq_refl).
  - by apply (Hdisconnect Hook.Handlers (Deepgram.new_DeepgramService "key") [] eq_refl).
Defined.

(** *** Connecting *)

(** Past its guard, [connect] leaves the handlers installed: a service that
    has opened a socket has the handlers the decoder calls. *)
Lemma connect_installs_handlers {Handlers} (h : Handlers) (ctor : completion unit)
    (this : Deepgram.DeepgramService Handlers) (sockets : list Deepgram.WebSocket) :
  Deepgram.isConnected this = false ->
  Deepgram.handlers (fst (fst (Deepgram.connect h ctor this sockets))) = Some h.
Proof.
  intros Hidle. unfold Deepgram.connect. rewrite Hidle. by destruct ctor.
Qed.

(** [startRecording] always completes: [connect] calls no handler but
    [onError]. *)
Lemma startRecording_completes (apiKey : string) (platform : Hook.Platform) (w : Hook.World) :
  is_Some (Hook.startRecording apiKey platform w).
Proof.
  unfold Hook.startRecording.
  destruct (Hook.audioServiceRef w), (Hook.deepgramServiceRef w) as [deepgram|];
    try by eexists.
  destruct (String.eqb apiKey ""); [by eexists|].
  unfold Deepgram.connect.
  destruct (Deepgram.isConnected deepgram); [by eexists|].
  destruct (Hook.new_WebSocket platform); by eexists.
Qed.




(** The same session at the buttons of the mounted component: initialize,
    press, release, press again, then the two sockets open. The release
    calls nothing, [isRecording] being false still, and the second press
    passes the component's test for the same reason. *)
Lemma pressed_twice_in_the_app :
  let platform := granting 1 1 in
  exists w,
    pressed_twice_before_open = Some w /\
    App.steps (H := refusing_engine)
      [App.InitializeClicked platform; App.RecordPressed platform; App.RecordReleased;
       App.RecordPressed platform;
       App.Platform (Hook.OnSocket platform 0 Hook.OpenEvent);
       App.Platform (Hook.OnSocket platform 1 Hook.OpenEvent)]
      (App.mount "key")
    = Some {| App.apiKey := "key"; App.voice := w |}.
Proof. intros platform. eexists. split; by vm_compute. Qed.






(** The guard of [connect] reads [isConnected], which only the socket's
    [onopen] sets: two calls in a row on a fresh channel, the first socket
    still opening, leave two live sockets. *)
Lemma connect_while_opening_adds_a_socket :
  let '(this, sockets, effects) :=
    connect_all [(Hook.handlers_of_startRecording, Normal tt);
                 (Hook.handlers_of_startRecording, Normal tt)]
      (Deepgram.new_DeepgramService "key") [] in
  Deepgram.isConnected this = false /\ Deepgram.socket this = Some 1 /\
  live_count sockets = 2 /\ effects = [].
Proof. by repeat split. Qed.

(** *** Initializing the audio source twice *)

(** C9, as stated, fails: [initialize] has no test for a service that is
    already initialized. Called again, it takes the stream and the context
    the platform hands out this time in place of the ones it held, and it
    fails when the platform now refuses. *)
Lemma initialize_again_reacquires :
  let this :=
    fst (AudioCapture.initialize (Hook.capture (granting 1 1))
           (@AudioCapture.new_AudioCaptureService Hook.Forward)) in
  initialized this /\
  AudioCapture.initialize (Hook.capture (granting 2 2)) this
    = (AudioCapture.set_audioContext (Some 2) (AudioCapture.set_mediaStream (Some 2) this),
       Normal true) /\
  fst (AudioCapture.initialize (Hook.capture (granting 2 2)) this) <> this /\
  snd (AudioCapture.initialize (Hook.capture denying) this)
    = Throw (ErrorObject "Error"
        "Microphone permission denied. Please allow microphone access in your system settings.").
Proof.
  repeat split; try (by eexists); discriminate.
Qed.

(** C9, amended. On an already-initialized audio source, [initialize] asks
    the platform again. When the platform grants a stream and an audio
    context, the call returns success and the source holds these two in
    place of the previous ones, recorder, chunk buffer and callback
    unchanged: it is a no-op only if they are the very objects it held.
    When the platform refuses the stream, the call fails with the mapped
    error and the source is unchanged. Either way the source stays
    initialized. *)
Theorem initialize_again_asks_the_platform {Callback}
    (platform : AudioCapture.CapturePlatform)
    (this : AudioCapture.AudioCaptureService Callback) :
  initialized this ->
  initialized (fst (AudioCapture.initialize platform this)) /\
  (forall s c,
     AudioCapture.mediaDevices platform = AudioCapture.GetUserMedia (Normal s) ->
     AudioCapture.new_AudioContext platform = Normal c ->
     AudioCapture.initialize platform this
       = (AudioCapture.set_audioContext (Some c)
            (AudioCapture.set_mediaStream (Some s) this), Normal true) /\
     (fst (AudioCapture.initialize platform this) = this <->
      AudioCapture.mediaStream this = Some s /\ AudioCapture.audioContext this = Some c)) /\
  (forall e,
     AudioCapture.mediaDevices platform = AudioCapture.GetUserMedia (Throw e) ->
     AudioCapture.initialize platform this
       = (this, Throw (AudioCapture.handlePermissionError e))).
Proof.
  intros [Hstream Hcontext]. unfold AudioCapture.initialize. split; [|split].
  - destruct (AudioCapture.mediaDevices platform) as [| |[s|e]]; simpl;
      try (by split).
    destruct (AudioCapture.new_AudioContext platform); simpl; by split.
  - intros s c -> ->. simpl. split; [done|].
    destruct this; simpl. split.
    + by intros [= -> ->].
    + by intros [-> ->].
  - by intros e ->.
Qed.

Lemma initialize_again_asks_the_platform_witness :
  let this :=
    fst (AudioCapture.initialize (Hook.capture (granting 1 1))
           (@AudioCapture.new_AudioCaptureService Hook.Forward)) in
  initialized (fst (AudioCapture.initialize (Hook.capture (granting 2 2)) this)) /\
  AudioCapture.initialize (Hook.capture (granting 2 2)) this
    = (AudioCapture.set_audioContext (Some 2) (AudioCapture.set_mediaStream (Some 2) this),
       Normal true).
Proof.
  pose proof (initialize_again_asks_the_platform (Hook.capture (granting 2 2))
                (fst (AudioCapture.initialize (Hook.capture (granting 1 1))
                        (@AudioCapture.new_AudioCaptureService Hook.Forward))))
    as Hagain.
  destruct Hagain as (Hinit & Hgranted & _).
  - split; by eexists.
  - split; [exact Hinit|]. by apply Hgranted.
Defined.

(** *** The frame decoder *)

Section Decoder.

Context `{JsEngine} {Handlers : Type}.
Implicit Types (this : Deepgram.DeepgramService Handlers) (h : Handlers).

Lemma strict_eq_string_true v lit : strict_eq_string v lit = true <-> v = Some (JStr lit).
Proof.
  unfold strict_eq_string. destruct v as [[]|]; try (split; [discriminate|congruence]).
  rewrite String.eqb_eq. split; [by intros ->|by intros [= ->]].
Qed.

Lemma truthy_or_else v s : truthy (Some (or_else v (JStr s))) = truthy v || truthy (Some (JStr s)).
Proof.
  destruct v as [j|]; [|done]. unfold or_else.
  destruct (truthy (Some j)) eqn:Hj; [by rewrite Hj|done].
Qed.

Lemma first_alternative_spec alts a :
  first_alternative alts a <->
  gt_zero (length_opt alts) = Normal true /\ index0 alts = Normal (Some a) /\
  (forall s, alts <> Some (JStr s)).
Proof.
  split.
  - intros [a' rest|members l a' Hl Hpos H0]; simpl.
    + done.
    + by rewrite Hl, H0.
  - intros (Hpos & H0 & Hstr).
    destruct alts as [[| | |s|[|a' rest]|members]|]; simplify_eq/=.
    + by destruct (Hstr s).
    + constructor.
    + destruct (assoc "length" members) as [l|] eqn:Hl; [|done].
      by econstructor.
Qed.

Lemma provided_message_spec d s :
  provided_message d s <->
  error_message (or_else (own "message" d) (JStr "Deepgram error")) = Normal s.
Proof.
  split.
  - intros [s' Hm Hs|v s' Hm Hv Hnot Hconv|Hm].
    + rewrite Hm. unfold or_else. simpl.
      by rewrite (proj2 (String.eqb_neq s' "")).
    + rewrite Hm. unfold or_else. rewrite Hv.
      destruct v; try done. by destruct (Hnot s0).
    + destruct (own "message" d) as [v|]; [|done].
      unfold or_else. by rewrite Hm.
  - destruct (own "message" d) as [v|] eqn:Hm.
    + unfold or_else. destruct (truthy (Some v)) eqn:Hv.
      * destruct v; simpl; intros Hs; simplify_eq;
          try (by eapply message_converted; [exact Hm|done|done|done]).
        apply message_string; [done|]. simpl in Hv.
        intros ->. done.
      * simpl. intros [= <-]. apply message_fallback. by rewrite Hm.
    + simpl. intros [= <-]. apply message_fallback. by rewrite Hm.
Qed.
Lemma bind_eval_normal {A B} (c : completion A) (a : A) (f : A -> Deepgram.M Handlers B) :
  c = Normal a -> (Deepgram.eval c ≫= f) = f a.
Proof. intros ->. unfold mbind, Deepgram.M_bind, Deepgram.eval. by destruct (f a). Qed.

Lemma bind_eval_throw {A B} (c : completion A) e (f : A -> Deepgram.M Handlers B) :
  c = Throw e -> (Deepgram.eval c ≫= f) = Deepgram.mkM [] (Throw e).
Proof. by intros ->. Qed.

Lemma bind_mret {A B} (a : A) (f : A -> Deepgram.M Handlers B) : (mret a ≫= f) = f a.
Proof. unfold mbind, mret, Deepgram.M_bind, Deepgram.M_ret. by destruct (f a). Qed.


Lemma invoke_installed this h call :
  Deepgram.handlers this = Some h -> Deepgram.invoke this call = [Deepgram.Invoke h call].
Proof. unfold Deepgram.invoke. by intros ->. Qed.

Lemma get_defined k (j : json) : j <> JNull -> get k (Some j) = Normal (own k j).
Proof. by destruct j. Qed.

Lemma text_frame_not_null a : ~ text_frame JNull a.
Proof. by intros [? _]. Qed.

(** The error statement, by cases. *)
Lemma handle_error_cases this h d :
  Deepgram.handlers this = Some h -> d <> JNull ->
  (exists s, error_frame d s /\
     Deepgram.handle_error this d
       = Deepgram.mkM [Deepgram.Invoke h (Deepgram.OnError s)] (Normal tt)) \/
  ((forall s, ~ error_frame d s) /\
   exists o, Deepgram.handle_error this d = Deepgram.mkM [] o).
Proof.
  intros Hh Hd. unfold Deepgram.handle_error.
  rewrite (bind_eval_normal _ (own "type" d)) by by apply get_defined.
  destruct (strict_eq_string (own "type" d) "Error") eqn:Htype; cbv iota.
  - apply strict_eq_string_true in Htype.
    rewrite (bind_eval_normal _ (own "message" d)) by by apply get_defined.
    destruct (error_message (or_else (own "message" d) (JStr "Deepgram error")))
      as [text|e] eqn:Htext.
    + left. exists text. split; [split; [done|by apply provided_message_spec]|].
      rewrite (bind_eval_normal _ text) by done.
      by rewrite (invoke_installed _ h).
    + right. split.
      * intros s [_ Hs%provided_message_spec]. congruence.
      * eexists. by rewrite (bind_eval_throw _ e).
  - right. split.
    + intros s [Hs _]. apply strict_eq_string_true in Hs. congruence.
    + by eexists.
Qed.

Lemma positive_length_defined k v :
  gt_zero (length_opt (get_opt k v)) <> Normal false ->
  get k v = Normal (get_opt k v).
Proof. destruct v as [[]|]; simpl; done. Qed.

Lemma positive_length_index alts :
  gt_zero (length_opt alts) = Normal true -> exists x, index0 alts = Normal x.
Proof. destruct alts as [[]|]; simpl; by eauto. Qed.

(** The results statement, by cases. *)
Lemma handle_results_cases this h d :
  Deepgram.handlers this = Some h -> d <> JNull ->
  (exists a, text_frame d a /\
     Deepgram.handle_results this d
       = Deepgram.mkM [Deepgram.Invoke h (Deepgram.OnTranscript (result_of d a))]
           (Normal tt)) \/
  ((forall a, ~ text_frame d a) /\
   exists o, Deepgram.handle_results this d = Deepgram.mkM [] o /\
             (own "type" d <> Some (JStr "Results") -> o = Normal tt)).
Proof.
  intros Hh Hd. unfold Deepgram.handle_results.
  rewrite (bind_eval_normal _ (own "type" d)) by by apply get_defined.
  destruct (strict_eq_string (own "type" d) "Results") eqn:Htype; cbv iota.
  - apply strict_eq_string_true in Htype.
    rewrite !(bind_eval_normal (get "channel" _) (own "channel" d)) by by apply get_defined.
    fold (alternatives_of d).
    destruct (gt_zero (length_opt (alternatives_of d))) as [[|]|e] eqn:Hpos.
    + rewrite (bind_eval_normal _ true) by done. cbv iota.
      rewrite (bind_eval_normal _ (alternatives_of d))
        by (apply positive_length_defined; fold (alternatives_of d); congruence).
      destruct (positive_length_index _ Hpos) as [x Hx].
      rewrite (bind_eval_normal _ x) by done.
      assert (x = None \/ x = Some JNull \/ exists a, x = Some a /\ a <> JNull)
        as [->|[->|(a & -> & Ha)]]
        by (destruct x as [[]|]; naive_solver).
      * right. split.
        { intros a (_ & (_ & H0 & _)%first_alternative_spec & Ha). congruence. }
        eexists. split; [|congruence]. by rewrite (bind_eval_throw _ TypeError).
      * right. split.
        { intros a (_ & (_ & H0 & _)%first_alternative_spec & Ha).
          rewrite Hx in H0. by simplify_eq. }
        eexists. split; [|congruence]. by rewrite (bind_eval_throw _ TypeError).
      * rewrite (bind_eval_normal _ (own "transcript" a)) by by apply get_defined.
        rewrite (bind_eval_normal _ (own "is_final" d)) by by apply get_defined.
        rewrite (bind_eval_normal _ (own "confidence" a)) by by apply get_defined.
        rewrite (bind_eval_normal _ (own "words" a)) by by apply get_defined.
        cbn zeta. cbn [Deepgram.transcript_value].
        rewrite truthy_or_else, orb_false_r.
        destruct (truthy (own "transcript" a)) eqn:Htext.
        { left. exists a. split; [|by rewrite (invoke_installed _ h)].
          split; [done|]. split; [|done].
          apply first_alternative_spec. repeat split; try done.
          intros s Hs. rewrite Hs in Hx. destruct s; simplify_eq/=. }
        { right. split; [|eexists; split; [reflexivity|done]].
          intros a' (_ & (_ & H0 & _)%first_alternative_spec & Ha').
          rewrite Hx in H0. simplify_eq. congruence. }
    + right. split; [|eexists; split; [by rewrite (bind_eval_normal _ false)|done]].
      intros a (_ & (Hpos' & _)%first_alternative_spec & _). congruence.
    + right. split; [|eexists; split; [by rewrite (bind_eval_throw _ e)|congruence]].
      intros a (_ & (Hpos' & _)%first_alternative_spec & _). congruence.
  - right. split.
    + intros a [Ha _]. apply strict_eq_string_true in Ha. congruence.
    + eexists. split; [|done]. by rewrite bind_mret.
Qed.

Lemma try_catch_log_outcome (body : Deepgram.M Handlers unit) text :
  Deepgram.outcome (Deepgram.try_catch_log body text) = Normal tt.
Proof. by destruct body as [effects [[]|e]]. Qed.

Lemma try_catch_log_calls (body : Deepgram.M Handlers unit) text :
  handler_calls (Deepgram.trace (Deepgram.try_catch_log body text))
  = handler_calls (Deepgram.trace body).
Proof.
  destruct body as [effects [[]|e]]; [done|].
  unfold Deepgram.try_catch_log, handler_calls; simpl.
  by rewrite omap_app, app_nil_r.
Qed.

Lemma text_frame_not_error d a s : text_frame d a -> error_frame d s -> False.
Proof. intros [Hr _] [He _]. congruence. Qed.

Lemma text_frame_functional d a a' : text_frame d a -> text_frame d a' -> a = a'.
Proof.
  intros (_ & (_ & H0 & _)%first_alternative_spec & _)
         (_ & (_ & H0' & _)%first_alternative_spec & _).
  congruence.
Qed.

Lemma error_frame_functional d s s' : error_frame d s -> error_frame d s' -> s = s'.
Proof.
  intros [_ Hs%provided_message_spec] [_ Hs'%provided_message_spec]. congruence.
Qed.

Lemma try_catch_log_trace (body : Deepgram.M Handlers unit) text :
  Deepgram.trace (Deepgram.try_catch_log body text) = Deepgram.trace body \/
  Deepgram.trace (Deepgram.try_catch_log body text)
  = Deepgram.trace body ++ [Deepgram.Console Deepgram.ErrorLevel text].
Proof. destruct body as [effects [[]|e]]; [by left|by right]. Qed.

(** The effects of the [try] block, by the kind of frame. *)
Lemma handleMessage_try_effects this h event_data :
  Deepgram.handlers this = Some h ->
  let effects := Deepgram.trace (Deepgram.handleMessage_try this event_data) in
  (exists d a, event_data = Deepgram.Parses d /\ text_frame d a /\
               effects = [Deepgram.Invoke h (Deepgram.OnTranscript (result_of d a))]) \/
  (exists d s, event_data = Deepgram.Parses d /\ error_frame d s /\
               effects = [Deepgram.Invoke h (Deepgram.OnError s)]) \/
  ((forall d a, event_data = Deepgram.Parses d -> ~ text_frame d a) /\
   (forall d s, event_data = Deepgram.Parses d -> ~ error_frame d s) /\
   effects = []).
Proof.
  intros Hh effects. subst effects. unfold Deepgram.handleMessage_try.
  destruct event_data as [|d].
  { right; right. split; [done|]. by split. }
  rewrite (bind_eval_normal _ d) by done.
  assert (d = JNull \/ d <> JNull) as [->|Hd] by (destruct d; naive_solver).
  { right; right. split; [|split; [|done]].
    - intros d a [= <-] [? _]. done.
    - intros d s [= <-] [? _]. done. }
  destruct (handle_results_cases this h d Hh Hd)
    as [(a & Ha & ->)|(Hna & o & -> & Ho)],
     (handle_error_cases this h d Hh Hd) as [(s & Hs & He)|(Hns & o' & He)].
  - destruct (text_frame_not_error _ _ _ Ha Hs).
  - left. exists d, a. split; [done|]. split; [done|].
    rewrite He. by destruct o' as [[]|].
  - right; left. exists d, s. split; [done|]. split; [done|].
    rewrite Ho by (destruct Hs as [Hs _]; congruence). by rewrite He.
  - right; right. split; [|split].
    + by intros ? a [= <-].
    + by intros ? s [= <-].
    + rewrite He. by destruct o as [[]|], o' as [[]|].
Qed.

(** C6. For every incoming frame, the decoder returns without raising, and
    its effects are its calls on the installed handlers, followed by one
    line on the error console when the [try] block threw. It calls
    [onTranscript] exactly when the frame parses to data of kind "Results"
    with at least one alternative and a non-empty transcript fragment in
    the first, and then once, with a result whose transcript is not empty.
    On data of kind "Error" it calls [onError], once, with the message
    provided, or with "Deepgram error" when there is none. On every other
    frame, those that do not parse included, it calls no handler. *)
Theorem handleMessage_decodes this h (event_data : Deepgram.MessageData) :
  Deepgram.handlers this = Some h ->
  let m := Deepgram.handleMessage this event_data in
  let calls := handler_calls (Deepgram.trace m) in
  Deepgram.outcome m = Normal tt /\
  (Deepgram.trace m = (Deepgram.Invoke h <$> calls) \/
   Deepgram.trace m
   = (Deepgram.Invoke h <$> calls)
     ++ [Deepgram.Console Deepgram.ErrorLevel "Failed to parse Deepgram message:"]) /\
  ((exists r, Deepgram.OnTranscript r ∈ calls) <->
   (exists d a, event_data = Deepgram.Parses d /\ text_frame d a)) /\
  (forall d a, event_data = Deepgram.Parses d -> text_frame d a ->
     calls = [Deepgram.OnTranscript (result_of d a)]) /\
  (forall r, Deepgram.OnTranscript r ∈ calls ->
     truthy (Some (Deepgram.transcript_value r)) = true) /\
  (forall d s, event_data = Deepgram.Parses d -> error_frame d s ->
     calls = [Deepgram.OnError s]) /\
  ((forall d a, event_data = Deepgram.Parses d -> ~ text_frame d a) ->
   (forall d s, event_data = Deepgram.Parses d -> ~ error_frame d s) ->
   calls = []).
Proof.
  intros Hh m calls. subst m calls. unfold Deepgram.handleMessage.
  rewrite try_catch_log_outcome, try_catch_log_calls.
  split; [done|].
  match goal with
  | |- context [Deepgram.try_catch_log ?body ?text] =>
      pose proof (try_catch_log_trace body text) as Hlog
  end.
  destruct (handleMessage_try_effects this h event_data Hh)
    as [(d & a & -> & Ha & Heff)|[(d & s & -> & Hs & Heff)|(Hna & Hns & Heff)]];
    rewrite Heff in *; cbn [handler_calls omap list_omap fmap list_fmap];
    (split; [exact Hlog|]); clear Hlog Heff.
  - split; [|split; [|split; [|split]]].
    + split; [by eauto|]. intros _. eexists. by apply list_elem_of_singleton.
    + intros ? a' [= <-] Ha'. by rewrite (text_frame_functional d a a').
    + intros r [= ->]%list_elem_of_singleton.
      unfold result_of; cbn [Deepgram.transcript_value].
      destruct Ha as (_ & _ & Ha). by rewrite truthy_or_else, Ha.
    + intros ? s [= <-] Hs. destruct (text_frame_not_error _ _ _ Ha Hs).
    + intros Hna _. destruct (Hna d a eq_refl Ha).
  - split; [|split; [|split; [|split]]].
    + split.
      * intros [r Hr%list_elem_of_singleton]. done.
      * intros (? & a & [= <-] & Ha). destruct (text_frame_not_error _ _ _ Ha Hs).
    + intros ? a [= <-] Ha. destruct (text_frame_not_error _ _ _ Ha Hs).
    + intros r Hr%list_elem_of_singleton. done.
    + intros ? s' [= <-] Hs'. by rewrite (error_frame_functional d s s').
    + intros _ Hns. destruct (Hns d s eq_refl Hs).
  - split; [|split; [|split; [|split]]].
    + split.
      * intros [r Hr%elem_of_nil]. done.
      * intros (d & a & Hd & Ha). destruct (Hna d a Hd Ha).
    + intros d a Hd Ha. destruct (Hna d a Hd Ha).
    + intros r Hr%elem_of_nil. done.
    + intros d s Hd Hs. destruct (Hns d s Hd Hs).
    + done.
Qed.

Lemma handle_error_other_kind this d :
  d <> JNull -> own "type" d <> Some (JStr "Error") ->
  Deepgram.handle_error this d = Deepgram.mkM [] (Normal tt).
Proof.
  intros Hd Htype. unfold Deepgram.handle_error.
  rewrite (bind_eval_normal _ (own "type" d)) by by apply get_defined.
  destruct (strict_eq_string (own "type" d) "Error") eqn:He; [|done].
  by apply strict_eq_string_true in He.
Qed.

(** The effects of the decoder on a text frame. *)
Lemma handleMessage_text_frame this h d a :
  Deepgram.handlers this = Some h -> text_frame d a ->
  Deepgram.handleMessage this (Deepgram.Parses d)
  = Deepgram.mkM [Deepgram.Invoke h (Deepgram.OnTranscript (result_of d a))] (Normal tt).
Proof.
  intros Hh Ha.
  assert (d <> JNull) as Hd by (intros ->; by apply (text_frame_not_null a)).
  unfold Deepgram.handleMessage, Deepgram.handleMessage_try.
  rewrite (bind_eval_normal _ d) by done.
  destruct (handle_results_cases this h d Hh Hd) as [(a' & Ha' & ->)|(Hna & _)];
    [|destruct (Hna a Ha)].
  rewrite (text_frame_functional d a' a) by done.
  rewrite handle_error_other_kind; [done|done|].
  destruct Ha as [Hr _]. congruence.
Qed.

End Decoder.

Lemma handleMessage_decodes_witness :
  let this := Deepgram.set_handlers (Some Hook.handlers_of_startRecording)
                (Deepgram.new_DeepgramService "key") in
  let d := results_frame [("is_final", JBool true)] "hello" in
  handler_calls
    (Deepgram.trace (Deepgram.handleMessage (H := refusing_engine) this (Deepgram.Parses d)))
  = [Deepgram.OnTranscript
       {| Deepgram.transcript_value := JStr "hello";
          Deepgram.isFinal_value := JBool true;
          Deepgram.confidence_value := JNum 0%float;
          Deepgram.words_value := undefined |}].
Proof.
  intros this d.
  destruct (handleMessage_decodes (H := refusing_engine) this
              Hook.handlers_of_startRecording (Deepgram.Parses d) eq_refl)
    as (_ & _ & _ & Htext & _).
  apply (Htext d (JObj [("transcript", JStr "hello")]) eq_refl).
  split; [reflexivity|]. split; [constructor|reflexivity].
Defined.

(** *** Results without a finality flag *)

(** C10. A frame of kind "Results" with at least one alternative, a
    non-empty transcript in the first, and no [is_final] member makes the
    decoder call [onTranscript], once, with a result whose [isFinal] is
    false, and whose [confidence] is 0 when the alternative has none. The
    coordinator takes it as an interim result: the interim transcript
    becomes the fragment and the accumulated transcript is not touched. *)
Theorem results_without_is_final_are_interim `{JsEngine}
    (platform : Hook.Platform) (i : nat) (w : Hook.World)
    (deepgram : Deepgram.DeepgramService Hook.Handlers) (h : Hook.Handlers)
    (d a : json) (t : string) :
  Hook.deepgramServiceRef w = Some deepgram ->
  Deepgram.handlers deepgram = Some h ->
  own "type" d = Some (JStr "Results") ->
  first_alternative (alternatives_of d) a ->
  own "transcript" a = Some (JStr t) -> t <> "" ->
  own "is_final" d = None ->
  exists r result w',
    handler_calls (Deepgram.trace (Deepgram.handleMessage deepgram (Deepgram.Parses d)))
      = [Deepgram.OnTranscript r] /\
    Deepgram.transcript_value r = JStr t /\
    Deepgram.isFinal_value r = JBool false /\
    (own "confidence" a = None -> Deepgram.confidence_value r = JNum 0%float) /\
    Deepgram.conforms r = Some result /\
    Deepgram.transcript result = t /\
    Deepgram.isFinal result = false /\
    Hook.socket_event platform i (Hook.MessageEvent (Deepgram.Parses d)) w = Some w' /\
    Hook.interimTranscript (Hook.state w') = t /\
    Hook.transcript (Hook.state w') = Hook.transcript (Hook.state w).
Proof.
  intros Hw Hh Htype Halt Ht Hne Hfinal.
  assert (text_frame d a) as Hframe.
  { split; [done|]. split; [done|]. rewrite Ht. simpl.
    by rewrite (proj2 (String.eqb_neq t "")). }
  assert (result_of d a
          = {| Deepgram.transcript_value := JStr t;
               Deepgram.isFinal_value := JBool false;
               Deepgram.confidence_value := or_else (own "confidence" a) (JNum 0%float);
               Deepgram.words_value := own "words" a |}) as Hresult.
  { unfold result_of. rewrite Ht, Hfinal. unfold or_else at 1 2. simpl.
    by rewrite (proj2 (String.eqb_neq t "")). }
  pose proof (handleMessage_text_frame deepgram h d a Hh Hframe) as Hdecoded.
  rewrite Hresult in Hdecoded.
  eexists _, _, _. split; [by rewrite Hdecoded|].
  split; [done|]. split; [done|]. split; [by intros ->|].
  split; [reflexivity|]. split; [done|]. split; [done|].
  unfold Hook.socket_event.
  rewrite list_alter_id by done. simpl. rewrite Hw, Hdecoded. simpl.
  by repeat split.
Qed.

Lemma results_without_is_final_are_interim_witness :
  exists r result w',
    handler_calls
      (Deepgram.trace
         (Deepgram.handleMessage (H := refusing_engine)
            {| Deepgram.socket := Some 0;
               Deepgram.config :=
                 Deepgram.config (@Deepgram.new_DeepgramService Hook.Handlers "key");
               Deepgram.handlers := Some Hook.handlers_of_startRecording;
               Deepgram.isConnected := true |}
            (Deepgram.Parses (results_frame [] "hello"))))
      = [Deepgram.OnTranscript r] /\
    Deepgram.transcript_value r = JStr "hello" /\
    Deepgram.isFinal_value r = JBool false /\
    (own "confidence" (JObj [("transcript", JStr "hello")]) = None ->
     Deepgram.confidence_value r = JNum 0%float) /\
    Deepgram.conforms r = Some result /\
    Deepgram.transcript result = "hello" /\
    Deepgram.isFinal result = false /\
    Hook.socket_event (H := refusing_engine) (granting 1 1) 0
      (Hook.MessageEvent (Deepgram.Parses (results_frame [] "hello"))) while_streaming
      = Some w' /\
    Hook.interimTranscript (Hook.state w') = "hello" /\
    Hook.transcript (Hook.state w') = Hook.transcript (Hook.state while_streaming).
Proof.
  apply (results_without_is_final_are_interim (H := refusing_engine)
           (granting 1 1) 0 while_streaming _ Hook.handlers_of_startRecording
           (results_frame [] "hello") (JObj [("transcript", JStr "hello")]) "hello").
  - reflexivity.
  - reflexivity.
  - reflexivity.
  - constructor.
  - reflexivity.
  - discriminate.
  - reflexivity.
Defined.

(** ** Further properties of the channel *)

(** X1. After [updateApiKey] the channel is not connected, whatever it was
    before, its configuration is the old one with the new key, and the next
    [connect] passes the guard: with a constructor that returns it opens a
    socket that offers the new key as its second subprotocol. *)
Theorem updateApiKey_then_connect {Handlers} (key : string) (h : Handlers)
    (this : Deepgram.DeepgramService Handlers) (sockets : list Deepgram.WebSocket) :
  let this' := fst (Deepgram.updateApiKey key this sockets) in
  let sockets' := snd (Deepgram.updateApiKey key this sockets) in
  Deepgram.isConnected this' = false /\
  Deepgram.apiKey (Deepgram.config this') = key /\
  Deepgram.language (Deepgram.config this') = Deepgram.language (Deepgram.config this) /\
  Deepgram.model (Deepgram.config this') = Deepgram.model (Deepgram.config this) /\
  Deepgram.punctuate (Deepgram.config this') = Deepgram.punctuate (Deepgram.config this) /\
  Deepgram.interimResults (Deepgram.config this')
    = Deepgram.interimResults (Deepgram.config this) /\
  length sockets' = length sockets /\
  exists ws,
    Deepgram.connect h (Normal tt) this' sockets'
    = (Deepgram.set_socket (Some (length sockets)) (Deepgram.set_handlers (Some h) this'),
       sockets' ++ [ws], []) /\
    Deepgram.protocols ws = ["token"; key] /\
    Deepgram.readyState ws = Deepgram.CONNECTING /\
    Deepgram.outbox ws = [].
Proof.
  unfold Deepgram.updateApiKey, Deepgram.disconnect, Deepgram.connect.
  destruct this as [[i|] config handlers [|]]; simpl;
    rewrite ?length_alter; repeat split; try done; by eexists.
Qed.

(** X2. [disconnect] always leaves a channel that holds no socket, is not
    connected and is not ready, with its configuration and handlers kept
    and no socket removed from the store; a second [disconnect] changes
    nothing, and audio sent afterwards reaches no socket. *)
Theorem disconnect_settles {Handlers}
    (this : Deepgram.DeepgramService Handlers) (sockets : list Deepgram.WebSocket) :
  let this' := fst (Deepgram.disconnect this sockets) in
  let sockets' := snd (Deepgram.disconnect this sockets) in
  Deepgram.socket this' = None /\
  Deepgram.isConnected this' = false /\
  Deepgram.isReady this' sockets' = false /\
  Deepgram.config this' = Deepgram.config this /\
  Deepgram.handlers this' = Deepgram.handlers this /\
  length sockets' = length sockets /\
  Deepgram.disconnect this' sockets' = (this', sockets') /\
  (forall bytes,
     fst (fst (Deepgram.sendAudio (Deepgram.BufferData bytes) this' sockets')) = sockets').
Proof.
  unfold Deepgram.disconnect.
  destruct (Deepgram.socket this) as [i|] eqn:Hsocket; simpl.
  - rewrite length_alter. by repeat split.
  - rewrite Hsocket. unfold Deepgram.isReady, Deepgram.sendAudio. simpl.
    rewrite Hsocket. by repeat split.
Qed.

(** X3. [disconnect] on a channel that holds a socket sends the
    [CloseStream] control frame exactly when that socket is open, after
    every frame already sent, then closes it: the socket is closing, or
    stays closed; what it was opened with is kept and no other socket of the
    store is touched. *)
Theorem disconnect_ends_the_stream {Handlers}
    (this : Deepgram.DeepgramService Handlers) (sockets : list Deepgram.WebSocket)
    (i : nat) (ws : Deepgram.WebSocket) :
  Deepgram.socket this = Some i ->
  sockets !! i = Some ws ->
  exists ws',
    snd (Deepgram.disconnect this sockets) !! i = Some ws' /\
    Deepgram.outbox ws'
      = Deepgram.outbox ws ++ (if Deepgram.is_open ws then [CloseStream] else []) /\
    Deepgram.readyState ws'
      = match Deepgram.readyState ws with
        | Deepgram.CLOSED => Deepgram.CLOSED
        | _ => Deepgram.CLOSING
        end /\
    Deepgram.query ws' = Deepgram.query ws /\
    Deepgram.protocols ws' = Deepgram.protocols ws /\
    forall j, j <> i -> snd (Deepgram.disconnect this sockets) !! j = sockets !! j.
Proof.
  intros Hsocket Hws. unfold Deepgram.disconnect. rewrite Hsocket. simpl.
  rewrite list_lookup_alter_eq, Hws. simpl. eexists. split; [reflexivity|].
  unfold Deepgram.is_open.
  destruct (Deepgram.readyState ws) eqn:Hstate; simpl; rewrite ?Hstate, ?app_nil_r;
    (repeat split; [done..|]); intros j Hj; by rewrite list_lookup_alter_ne.
Qed.

Lemma disconnect_ends_the_stream_witness :
  let ws := {| Deepgram.query := []; Deepgram.protocols := ["token"; "key"];
               Deepgram.readyState := Deepgram.OPEN;
               Deepgram.outbox := [Deepgram.BinaryFrame []] |} in
  let this := Deepgram.set_socket (Some 0)
                (@Deepgram.new_DeepgramService Hook.Handlers "key") in
  exists ws',
    snd (Deepgram.disconnect this [ws]) !! 0 = Some ws' /\
    Deepgram.outbox ws' = [Deepgram.BinaryFrame []; CloseStream] /\
    Deepgram.readyState ws' = Deepgram.CLOSING.
Proof.
  intros ws this.
  destruct (disconnect_ends_the_stream this [ws] 0 ws eq_refl eq_refl)
    as (ws' & Hws' & Houtbox & Hstate & _).
  exists ws'. by repeat split.
Defined.

Lemma sendAudio_all_unfold {Handlers} (this : Deepgram.DeepgramService Handlers)
    (sockets : list Deepgram.WebSocket) (i : nat) (ws : Deepgram.WebSocket)
    (buffers : list (list Byte.byte)) :
  Deepgram.socket this = Some i -> sockets !! i = Some ws -> Deepgram.is_open ws = true ->
  sendAudio_all buffers this sockets
  = <[i := {| Deepgram.query := Deepgram.query ws;
              Deepgram.protocols := Deepgram.protocols ws;
              Deepgram.readyState := Deepgram.readyState ws;
              Deepgram.outbox := Deepgram.outbox ws ++ (Deepgram.BinaryFrame <$> buffers) |}]>
      sockets.
Proof.
  revert sockets ws. induction buffers as [|bytes buffers IH]; intros sockets ws Hi Hws Hopen.
  - simpl. rewrite app_nil_r. symmetry. apply list_insert_id. by destruct ws.
  - simpl. unfold Deepgram.sendAudio at 1. rewrite Hi, Hws, Hopen. simpl.
    rewrite (IH _ (Deepgram.ws_send (Deepgram.BinaryFrame bytes) ws)); try done.
    + rewrite list_insert_alter, list_alter_alter_eq, list_insert_alter.
      apply list_alter_ext; [|done]. intros x _. simpl.
      by rewrite <- (assoc_L (++)).
    + by rewrite list_lookup_alter_eq, Hws.
Qed.

(** X4. Array buffers passed to [sendAudio] one after the other reach the
    channel's socket, when it is open, as binary frames in the order of the
    calls, after the frames sent before, each buffer once; the socket stays
    open and no other socket is touched. When the channel holds no socket,
    or one that is not open, every buffer is dropped and the store is
    unchanged. *)
Theorem sendAudio_keeps_the_order {Handlers}
    (this : Deepgram.DeepgramService Handlers) (sockets : list Deepgram.WebSocket)
    (buffers : list (list Byte.byte)) :
  match i ← Deepgram.socket this; ws ← sockets !! i; Some (i, ws) with
  | Some (i, ws) =>
      if Deepgram.is_open ws then
        exists ws',
          sendAudio_all buffers this sockets !! i = Some ws' /\
          Deepgram.outbox ws' = Deepgram.outbox ws ++ (Deepgram.BinaryFrame <$> buffers) /\
          Deepgram.readyState ws' = Deepgram.OPEN /\
          (forall j, j <> i -> sendAudio_all buffers this sockets !! j = sockets !! j) /\
          length (sendAudio_all buffers this sockets) = length sockets
      else sendAudio_all buffers this sockets = sockets
  | None => sendAudio_all buffers this sockets = sockets
  end.
Proof.
  destruct (Deepgram.socket this) as [i|] eqn:Hi; simpl.
  - destruct (sockets !! i) as [ws|] eqn:Hws; simpl.
    + destruct (Deepgram.is_open ws) eqn:Hopen.
      * rewrite (sendAudio_all_unfold this sockets i ws) by done.
        eexists. split; [apply list_lookup_insert_eq; by eapply lookup_lt_Some|].
        split; [done|]. split.
        { simpl. unfold Deepgram.is_open in Hopen.
          by destruct (Deepgram.readyState ws). }
        split; [|by rewrite length_insert].
        intros j Hj. by rewrite list_lookup_insert_ne.
      * induction buffers as [|bytes buffers IH]; [done|].
        simpl. unfold Deepgram.sendAudio at 1. by rewrite Hi, Hws, Hopen.
    + induction buffers as [|bytes buffers IH]; [done|].
      simpl. unfold Deepgram.sendAudio at 1. by rewrite Hi, Hws.
  - induction buffers as [|bytes buffers IH]; [done|].
    simpl. unfold Deepgram.sendAudio at 1. by rewrite Hi.
Qed.

(** X5. A blob passed to [sendAudio] on an open socket is not sent by the
    call: the call logs and leaves a promise, and the bytes are sent when
    they arrive, on the socket the channel holds then. When [disconnect]
    runs in between, the bytes are sent nowhere: the socket that was open
    got [CloseStream] as its last frame. *)
Theorem blob_is_sent_when_its_bytes_arrive {Handlers}
    (this : Deepgram.DeepgramService Handlers) (sockets : list Deepgram.WebSocket)
    (i : nat) (ws : Deepgram.WebSocket) (size : nat) (type : string)
    (buffer : list Byte.byte) :
  Deepgram.socket this = Some i ->
  sockets !! i = Some ws ->
  Deepgram.is_open ws = true ->
  Deepgram.sendAudio (Deepgram.BlobData size type) this sockets
    = (sockets, [Deepgram.Console Deepgram.LogLevel "Sending audio blob:"], true) /\
  Deepgram.arrayBuffer_then buffer this sockets
    = Normal (<[i := Deepgram.ws_send (Deepgram.BinaryFrame buffer) ws]> sockets) /\
  Deepgram.arrayBuffer_then buffer
    (fst (Deepgram.disconnect this sockets)) (snd (Deepgram.disconnect this sockets))
    = Normal (snd (Deepgram.disconnect this sockets)) /\
  (snd (Deepgram.disconnect this sockets) !! i)
    = Some (Deepgram.ws_close (Deepgram.ws_send CloseStream ws)).
Proof.
  intros Hi Hws Hopen.
  unfold Deepgram.sendAudio, Deepgram.arrayBuffer_then, Deepgram.disconnect.
  rewrite Hi, Hws, Hopen. simpl. rewrite list_lookup_alter_eq, Hws. simpl.
  rewrite Hopen. repeat split.
  unfold Deepgram.send. unfold Deepgram.is_open in Hopen.
  by destruct (Deepgram.readyState ws).
Qed.

Lemma blob_is_sent_when_its_bytes_arrive_witness :
  let ws := {| Deepgram.query := []; Deepgram.protocols := ["token"; "key"];
               Deepgram.readyState := Deepgram.OPEN; Deepgram.outbox := [] |} in
  let this := Deepgram.set_socket (Some 0)
                (@Deepgram.new_DeepgramService Hook.Handlers "key") in
  Deepgram.arrayBuffer_then [] this [ws]
    = Normal [Deepgram.ws_send (Deepgram.BinaryFrame []) ws] /\
  Deepgram.arrayBuffer_then []
    (fst (Deepgram.disconnect this [ws])) (snd (Deepgram.disconnect this [ws]))
    = Normal [Deepgram.ws_close (Deepgram.ws_send CloseStream ws)].
Proof.
  intros ws this.
  destruct (blob_is_sent_when_its_bytes_arrive this [ws] 0 ws 1 "audio/webm" []
              eq_refl eq_refl eq_refl) as (_ & Hthen & Hlate & _).
  split; [exact Hthen|exact Hlate].
Defined.

(** ** Further properties of the audio source *)

Section Audio.

Context {Callback : Type}.
Implicit Types (this : AudioCapture.AudioCaptureService Callback).

(** What a run of [dataavailable] events leaves: the chunks that carry
    data, appended in order, each handed once to the callback in place. *)
Lemma ondataavailable_all_buffers events : forall this,
  let '(this', calls) := ondataavailable_all events this in
  AudioCapture.audioChunks this' = AudioCapture.audioChunks this ++ nonempty_chunks events /\
  calls = match AudioCapture.onDataCallback this with
          | Some cb => (fun b => (cb, b)) <$> nonempty_chunks events
          | None => []
          end /\
  AudioCapture.mediaStream this' = AudioCapture.mediaStream this /\
  AudioCapture.audioContext this' = AudioCapture.audioContext this /\
  AudioCapture.mediaRecorder this' = AudioCapture.mediaRecorder this /\
  AudioCapture.onDataCallback this' = AudioCapture.onDataCallback this.
Proof.
  induction events as [|data events IH]; intros this.
  - simpl. rewrite app_nil_r. repeat split. by destruct (AudioCapture.onDataCallback this).
  - simpl. unfold AudioCapture.ondataavailable, nonempty_chunks.
    rewrite filter_cons.
    destruct (Nat.ltb_spec 0 (AudioCapture.size data)) as [Hpos|Hzero].
    + rewrite decide_True by done.
      specialize (IH (AudioCapture.set_audioChunks
                        (AudioCapture.audioChunks this ++ [data]) this)).
      destruct (ondataavailable_all events _) as [this' calls].
      destruct IH as (Hchunks & Hcalls & Hstream & Hcontext & Hrecorder & Hcallback).
      simpl in *. rewrite Hchunks, Hcalls, <- (assoc_L (++)).
      repeat split; try done.
      by destruct (AudioCapture.onDataCallback this).
    + rewrite decide_False by lia.
      specialize (IH this). destruct (ondataavailable_all events this) as [this' calls].
      done.
Qed.

(** X6. A recording session on an initialized audio source, on a platform
    whose recorder can be created and started: [startRecording] succeeds
    and the source is recording; the chunks that carry data, and only
    they, are handed to the callback once each, in arrival order, and
    buffered in that order, whatever was buffered by an earlier session
    being discarded; [stopRecording] then returns one blob of type
    audio/webm whose size is the sum of the chunks' sizes, or null when
    no chunk carried data, empties the buffer, stops the recorder and
    keeps the stream. *)
Theorem recording_session_buffers_in_order (onData : Callback)
    (platform : AudioCapture.RecorderPlatform) this (events : list AudioCapture.Blob) :
  is_Some (AudioCapture.mediaStream this) ->
  AudioCapture.new_MediaRecorder platform = Normal tt ->
  AudioCapture.start platform = Normal tt ->
  exists started recorded,
    AudioCapture.startRecording onData platform this = (started, Normal tt) /\
    AudioCapture.isRecording started = true /\
    ondataavailable_all events started
      = (recorded, (fun b => (onData, b)) <$> nonempty_chunks events) /\
    AudioCapture.audioChunks recorded = nonempty_chunks events /\
    AudioCapture.isRecording recorded = true /\
    snd (AudioCapture.stopRecording recorded)
      = match nonempty_chunks events with
        | [] => None
        | chunks =>
            Some {| AudioCapture.size := foldr (fun b n => AudioCapture.size b + n) 0 chunks;
                    AudioCapture.type := "audio/webm" |}
        end /\
    AudioCapture.audioChunks (fst (AudioCapture.stopRecording recorded)) = [] /\
    AudioCapture.isRecording (fst (AudioCapture.stopRecording recorded)) = false /\
    AudioCapture.mediaStream (fst (AudioCapture.stopRecording recorded))
      = AudioCapture.mediaStream this.
Proof.
  intros [stream Hstream] Hrecorder Hstart.
  unfold AudioCapture.startRecording. rewrite Hstream, Hrecorder, Hstart.
  match goal with
  | |- exists started recorded, (?s, _) = _ /\ _ => set (running := s)
  end.
  pose proof (ondataavailable_all_buffers events running) as Hall.
  destruct (ondataavailable_all events running) as [recorded calls] eqn:Hrun.
  destruct Hall as (Hchunks & Hcalls & Hstream' & Hcontext & Hrec & Hcallback).
  simpl in Hchunks, Hcalls, Hstream', Hrec. subst calls.
  exists running, recorded. split; [reflexivity|]. split; [done|].
  split; [exact Hrun|]. split; [done|].
  unfold AudioCapture.isRecording, AudioCapture.stopRecording.
  rewrite Hrec. simpl. rewrite Hchunks.
  split; [done|].
  destruct (nonempty_chunks events) as [|chunk chunks] eqn:Hnonempty; simpl;
    rewrite ?Hrec; simpl; rewrite ?Hchunks, ?Hstream', ?Hstream; by repeat split.
Qed.

(** X7. After [stopRecording] the source is not recording and its buffer
    is empty, with stream, context and callback kept; a second
    [stopRecording] changes nothing and returns null. *)
Theorem stopRecording_again_returns_null this :
  let stopped := fst (AudioCapture.stopRecording this) in
  AudioCapture.stopRecording stopped = (stopped, None) /\
  AudioCapture.isRecording stopped = false /\
  AudioCapture.audioChunks stopped = [] /\
  AudioCapture.mediaStream stopped = AudioCapture.mediaStream this /\
  AudioCapture.audioContext stopped = AudioCapture.audioContext this /\
  AudioCapture.onDataCallback stopped = AudioCapture.onDataCallback this.
Proof.
  unfold AudioCapture.stopRecording, AudioCapture.isRecording.
  destruct this as [stream context [[s []]|] [|chunk chunks] callback]; simpl;
    by repeat split.
Qed.

(** X8. [dispose] stops the tracks of the stream and closes the audio
    context, each when the source holds one and in that order, and leaves
    a source that holds neither, is not recording and buffers nothing. A
    second [dispose] releases nothing, and [startRecording] on a disposed
    source throws the not-initialized error. *)
Theorem dispose_releases_once (onData : Callback)
    (platform : AudioCapture.RecorderPlatform) this :
  let disposed := fst (AudioCapture.dispose this) in
  snd (AudioCapture.dispose this)
    = match AudioCapture.mediaStream this with
      | Some s => [AudioCapture.TracksStopped s]
      | None => []
      end ++
      match AudioCapture.audioContext this with
      | Some c => [AudioCapture.ContextClosed c]
      | None => []
      end /\
  AudioCapture.mediaStream disposed = None /\
  AudioCapture.audioContext disposed = None /\
  AudioCapture.isRecording disposed = false /\
  AudioCapture.audioChunks disposed = [] /\
  AudioCapture.dispose disposed = (disposed, []) /\
  AudioCapture.startRecording onData platform disposed
    = (disposed,
       Throw (ErrorObject "Error" "Audio capture not initialized. Call initialize() first.")).
Proof.
  unfold AudioCapture.dispose, AudioCapture.stopRecording, AudioCapture.isRecording,
    AudioCapture.startRecording.
  destruct this as [[stream|] [context|] [[s []]|] [|chunk chunks] callback]; simpl;
    by repeat split.
Qed.

End Audio.

Lemma recording_session_buffers_in_order_witness :
  let this := AudioCapture.set_mediaStream (Some 1)
                (@AudioCapture.new_AudioCaptureService Hook.Forward) in
  let events := [{| AudioCapture.size := 3; AudioCapture.type := "audio/webm" |};
                 {| AudioCapture.size := 0; AudioCapture.type := "audio/webm" |};
                 {| AudioCapture.size := 2; AudioCapture.type := "audio/webm" |}] in
  exists started recorded,
    AudioCapture.startRecording Hook.forward_to_sendAudio
      (Hook.recorder (granting 1 1)) this = (started, Normal tt) /\
    fst (ondataavailable_all events started) = recorded /\
    snd (AudioCapture.stopRecording recorded)
    = Some {| AudioCapture.size := 5; AudioCapture.type := "audio/webm" |}.
Proof.
  intros this events.
  destruct (recording_session_buffers_in_order Hook.forward_to_sendAudio
              (Hook.recorder (granting 1 1)) this events)
    as (started & recorded & Hstart & _ & Hrun & _ & _ & Hblob & _).
  - by eexists.
  - reflexivity.
  - reflexivity.
  - exists started, recorded. split; [exact Hstart|]. split; [by rewrite Hrun|].
    exact Hblob.
Defined.

(** X9. Every error the audio source reports is an [Error] object, so
    that its message is what the hook shows; the three refusals of the
    platform the source knows by name, permission denied, no microphone
    and microphone in use, get messages that differ from one another, and
    any other [DOMException] is reported with its own message after
    "Microphone error: ". *)
Theorem permission_errors_are_told_apart :
  (forall e, exists name message,
     AudioCapture.handlePermissionError e = ErrorObject name message) /\
  (forall Callback platform (this : AudioCapture.AudioCaptureService Callback) e,
     snd (AudioCapture.initialize platform this) = Throw e ->
     exists name message, e = ErrorObject name message) /\
  (forall n1 m1 n2 m2,
     n1 ∈ ["NotAllowedError"; "NotFoundError"; "NotReadableError"] ->
     n2 ∈ ["NotAllowedError"; "NotFoundError"; "NotReadableError"] ->
     AudioCapture.handlePermissionError (DOMException n1 m1)
       = AudioCapture.handlePermissionError (DOMException n2 m2) ->
     n1 = n2) /\
  (forall n m,
     n ∉ ["NotAllowedError"; "NotFoundError"; "NotReadableError"] ->
     AudioCapture.handlePermissionError (DOMException n m)
       = ErrorObject "Error" ("Microphone error: " +:+ m)).
Proof.
  assert (forall e, exists name message,
            AudioCapture.handlePermissionError e = ErrorObject name message) as Herror.
  { intros [n m|n m|]; simpl; [|by eauto..].
    repeat (case_match; [by eauto|]). by eauto. }
  split; [exact Herror|]. split; [|split].
  - intros Callback platform this e. unfold AudioCapture.initialize.
    destruct (AudioCapture.mediaDevices platform) as [| |[s|e']]; simpl;
      try (intros [= <-]; by eauto).
    destruct (AudioCapture.new_AudioContext platform) as [c|e']; simpl; [done|].
    intros [= <-]. apply Herror.
  - intros n1 m1 n2 m2 H1 H2.
    repeat (apply elem_of_cons in H1 as [->|H1]); [| | |by apply elem_of_nil in H1];
      repeat (apply elem_of_cons in H2 as [->|H2]); try (by apply elem_of_nil in H2);
      done.
  - intros n m Hn. simpl.
    destruct (String.eqb_spec n "NotAllowedError") as [->|_];
      [destruct Hn; apply list_elem_of_In; simpl; auto|].
    destruct (String.eqb_spec n "NotFoundError") as [->|_];
      [destruct Hn; apply list_elem_of_In; simpl; auto|].
    destruct (String.eqb_spec n "NotReadableError") as [->|_];
      [destruct Hn; apply list_elem_of_In; simpl; auto|].
    done.
Qed.

(** ** Further properties of the coordinator *)

(** X10. [startRecording] past its two guards: the interim transcript is
    emptied and the accumulated one kept. On a connected channel nothing
    else happens, the error is cleared. Otherwise [connect] runs: when the
    constructor returns, one socket is added, still connecting and with no
    frame sent, offering the key the channel was built with, the error is
    cleared and the flags keep their values until the socket opens; when
    the constructor throws, no socket is added, the error is the message of
    what was thrown (or the fallback text) and both flags are false. *)
Theorem startRecording_past_the_guards
    (apiKey : string) (platform : Hook.Platform) (w : Hook.World)
    (deepgram : Deepgram.DeepgramService Hook.Handlers) :
  is_Some (Hook.audioServiceRef w) ->
  Hook.deepgramServiceRef w = Some deepgram ->
  apiKey <> "" ->
  exists w',
    Hook.startRecording apiKey platform w = Some w' /\
    Hook.interimTranscript (Hook.state w') = "" /\
    Hook.transcript (Hook.state w') = Hook.transcript (Hook.state w) /\
    Hook.isInitialized (Hook.state w') = Hook.isInitialized (Hook.state w) /\
    Hook.audioServiceRef w' = Hook.audioServiceRef w /\
    if Deepgram.isConnected deepgram then
      Hook.error (Hook.state w') = None /\
      Hook.isRecording (Hook.state w') = Hook.isRecording (Hook.state w) /\
      Hook.isConnected (Hook.state w') = Hook.isConnected (Hook.state w) /\
      Hook.deepgramServiceRef w' = Some deepgram /\
      Hook.sockets w' = Hook.sockets w
    else
      match Hook.new_WebSocket platform with
      | Normal _ =>
          Hook.error (Hook.state w') = None /\
          Hook.isRecording (Hook.state w') = Hook.isRecording (Hook.state w) /\
          Hook.isConnected (Hook.state w') = Hook.isConnected (Hook.state w) /\
          Hook.sockets w' = Hook.sockets w ++ [opening (Deepgram.config deepgram)] /\
          Hook.deepgramServiceRef w'
            = Some (Deepgram.set_socket (Some (length (Hook.sockets w)))
                      (Deepgram.set_handlers (Some Hook.handlers_of_startRecording) deepgram))
      | Throw e =>
          Hook.error (Hook.state w')
            = Some (Deepgram.thrown_message "Failed to connect to Deepgram" e) /\
          Hook.isRecording (Hook.state w') = false /\
          Hook.isConnected (Hook.state w') = false /\
          Hook.sockets w' = Hook.sockets w /\
          Hook.deepgramServiceRef w'
            = Some (Deepgram.set_handlers (Some Hook.handlers_of_startRecording) deepgram)
      end.
Proof.
  intros [audio Haudio] Hdeepgram Hkey. unfold Hook.startRecording.
  rewrite Haudio, Hdeepgram, (proj2 (String.eqb_neq apiKey "")) by done.
  unfold Deepgram.connect. simpl.
  destruct (Deepgram.isConnected deepgram) eqn:Hconnected; simpl.
  - eexists. split; [reflexivity|]. simpl. by repeat split.
  - destruct (Hook.new_WebSocket platform) as [[]|e]; simpl.
    + eexists. split; [reflexivity|]. simpl. by repeat split.
    + eexists. split; [reflexivity|]. simpl. by repeat split.
Qed.

Lemma startRecording_past_the_guards_witness :
  let w := Hook.initialize "key" (granting 1 1) Hook.initial_world in
  exists w',
    Hook.startRecording "key" (refusing_sockets (ErrorObject "SyntaxError" "bad token")) w
      = Some w' /\
    Hook.error (Hook.state w') = Some "bad token" /\
    Hook.sockets w' = [].
Proof.
  intros w.
  destruct (startRecording_past_the_guards "key"
              (refusing_sockets (ErrorObject "SyntaxError" "bad token")) w
              (Deepgram.new_DeepgramService "key"))
    as (w' & Hstart & _ & _ & _ & _ & Herror & _ & _ & Hsockets & _).
  - by eexists.
  - reflexivity.
  - discriminate.
  - exists w'. by repeat split.
Defined.

Lemma audio_stopRecording_stopped {Callback}
    (this : AudioCapture.AudioCaptureService Callback) :
  AudioCapture.stopRecording (fst (AudioCapture.stopRecording this))
  = (fst (AudioCapture.stopRecording this), None) /\
  AudioCapture.isRecording (fst (AudioCapture.stopRecording this)) = false /\
  AudioCapture.audioChunks (fst (AudioCapture.stopRecording this)) = [].
Proof.
  unfold AudioCapture.stopRecording, AudioCapture.isRecording.
  destruct this as [stream context [[s []]|] [|chunk chunks] callback]; simpl;
    by repeat split.
Qed.

Lemma disconnect_disconnected {Handlers}
    (this : Deepgram.DeepgramService Handlers) (sockets : list Deepgram.WebSocket) :
  Deepgram.disconnect (fst (Deepgram.disconnect this sockets))
    (snd (Deepgram.disconnect this sockets))
  = Deepgram.disconnect this sockets.
Proof.
  unfold Deepgram.disconnect.
  destruct (Deepgram.socket this) as [i|] eqn:Hsocket; simpl; [done|].
  by rewrite Hsocket.
Qed.

(** The four components of the world after [stopRecording]. *)
Lemma stopRecording_components (w : Hook.World) :
  Hook.state (Hook.stopRecording w)
  = Hook.with_interimTranscript ""
      (Hook.with_isConnected false (Hook.with_isRecording false (Hook.state w))) /\
  Hook.audioServiceRef (Hook.stopRecording w)
  = (fun audio => fst (AudioCapture.stopRecording audio)) <$> Hook.audioServiceRef w /\
  Hook.deepgramServiceRef (Hook.stopRecording w)
  = (fun deepgram => fst (Deepgram.disconnect deepgram (Hook.sockets w)))
      <$> Hook.deepgramServiceRef w /\
  Hook.sockets (Hook.stopRecording w)
  = match Hook.deepgramServiceRef w with
    | Some deepgram => snd (Deepgram.disconnect deepgram (Hook.sockets w))
    | None => Hook.sockets w
    end.
Proof.
  destruct w as [s [audio|] [deepgram|] sockets]; unfold Hook.stopRecording; simpl;
    try destruct (Deepgram.disconnect deepgram sockets); done.
Qed.

Lemma world_eq (w w' : Hook.World) :
  Hook.state w = Hook.state w' ->
  Hook.audioServiceRef w = Hook.audioServiceRef w' ->
  Hook.deepgramServiceRef w = Hook.deepgramServiceRef w' ->
  Hook.sockets w = Hook.sockets w' ->
  w = w'.
Proof. destruct w, w'. simpl. by intros -> -> -> ->. Qed.

(** X11. [stopRecording] ends the session in every state: both flags are
    false and the interim transcript is empty, while the accumulated
    transcript, the error and [isInitialized] keep their values; the audio
    source, when there is one, is not recording and buffers nothing; the
    channel, when there is one, holds no socket and is not connected, and
    the socket it held is no longer opening or open. A second
    [stopRecording] changes nothing. *)
Theorem stopRecording_ends_the_session (w : Hook.World) :
  let w' := Hook.stopRecording w in
  Hook.isRecording (Hook.state w') = false /\
  Hook.isConnected (Hook.state w') = false /\
  Hook.interimTranscript (Hook.state w') = "" /\
  Hook.transcript (Hook.state w') = Hook.transcript (Hook.state w) /\
  Hook.error (Hook.state w') = Hook.error (Hook.state w) /\
  Hook.isInitialized (Hook.state w') = Hook.isInitialized (Hook.state w) /\
  (forall audio, Hook.audioServiceRef w' = Some audio ->
     AudioCapture.isRecording audio = false /\ AudioCapture.audioChunks audio = []) /\
  (forall deepgram, Hook.deepgramServiceRef w' = Some deepgram ->
     Deepgram.socket deepgram = None /\ Deepgram.isConnected deepgram = false) /\
  (forall deepgram i ws,
     Hook.deepgramServiceRef w = Some deepgram ->
     Deepgram.socket deepgram = Some i ->
     Hook.sockets w !! i = Some ws ->
     exists ws', Hook.sockets w' !! i = Some ws' /\ live ws' = false) /\
  Hook.stopRecording w' = w'.
Proof.
  intros w'. subst w'.
  destruct (stopRecording_components w) as (Hstate & Haudio & Hdeepgram & Hsockets).
  do 6 (split; [by rewrite Hstate|]).
  split.
  { intros audio'. rewrite Haudio.
    destruct (Hook.audioServiceRef w) as [audio|]; simpl; [|done].
    intros [= <-]. by destruct (audio_stopRecording_stopped audio) as (_ & ? & ?). }
  split.
  { intros deepgram'. rewrite Hdeepgram.
    destruct (Hook.deepgramServiceRef w) as [deepgram|]; simpl; [|done].
    intros [= <-]. unfold Deepgram.disconnect.
    destruct (Deepgram.socket deepgram) eqn:Hsocket; simpl; by rewrite ?Hsocket. }
  split.
  { intros deepgram i ws Href Hsocket Hws. rewrite Hsockets, Href.
    unfold Deepgram.disconnect. rewrite Hsocket. simpl.
    rewrite list_lookup_alter_eq, Hws. simpl. eexists. split; [reflexivity|].
    unfold live, Deepgram.is_open.
    destruct (Deepgram.readyState ws) eqn:Hstate'; simpl; by rewrite ?Hstate'. }
  destruct (stopRecording_components (Hook.stopRecording w))
    as (Hstate' & Haudio' & Hdeepgram' & Hsockets').
  apply world_eq.
  - by rewrite Hstate', Hstate.
  - rewrite Haudio', Haudio.
    destruct (Hook.audioServiceRef w) as [audio|]; simpl; [|done].
    destruct (audio_stopRecording_stopped audio) as (Hagain & _). by rewrite Hagain.
  - rewrite Hdeepgram', Hdeepgram, Hsockets.
    destruct (Hook.deepgramServiceRef w) as [deepgram|]; simpl; [|done].
    by rewrite disconnect_disconnected.
  - rewrite Hsockets', Hdeepgram, Hsockets.
    destruct (Hook.deepgramServiceRef w) as [deepgram|]; simpl; [|done].
    by rewrite disconnect_disconnected.
Qed.

(** *** What every state of the coordinator satisfies *)

Lemma run_preserves (P : Hook.World -> Prop) (platform : Hook.Platform) :
  (forall call w w', Hook.deliver platform call w = Some w' -> P w -> P w') ->
  forall effects w w', Hook.run platform effects w = Some w' -> P w -> P w'.
Proof.
  intros Hdeliver effects.
  induction effects as [|[level text|h call] effects IH]; intros w w'; simpl.
  - by intros [= <-].
  - apply IH.
  - destruct (Hook.deliver platform call w) as [w1|] eqn:Hcall; simpl; [|done].
    intros Hrun Hw. eapply IH; [exact Hrun|]. by eapply Hdeliver.
Qed.

Lemma steps_preserves `{JsEngine} (P : Hook.World -> Prop) (ok : Hook.Action -> bool) :
  (forall a w w', ok a = true -> Hook.step a w = Some w' -> P w -> P w') ->
  forall actions w w',
    forallb ok actions = true -> Hook.steps actions w = Some w' -> P w -> P w'.
Proof.
  intros Hstep actions.
  induction actions as [|a actions IH]; intros w w'; simpl.
  - by intros _ [= <-].
  - intros [Ha Hrest]%andb_prop.
    destruct (Hook.step a w) as [w1|] eqn:Hrun; simpl; [|done].
    intros Hsteps Hw. eapply IH; [done|exact Hsteps|]. by eapply Hstep.
Qed.

Ltac consistent_same := unfold consistent; simpl; repeat split; auto.

Lemma audio_startRecording_stream {Callback} (onData : Callback) platform
    (this : AudioCapture.AudioCaptureService Callback) :
  let this' := fst (AudioCapture.startRecording onData platform this) in
  AudioCapture.mediaStream this' = AudioCapture.mediaStream this /\
  (AudioCapture.isRecording this' = true -> is_Some (AudioCapture.mediaStream this) \/
     AudioCapture.isRecording this = true).
Proof.
  unfold AudioCapture.startRecording.
  destruct (AudioCapture.mediaStream this) as [stream|] eqn:Hstream; simpl.
  - destruct (AudioCapture.new_MediaRecorder platform); simpl;
      [destruct (AudioCapture.start platform)|]; simpl; rewrite ?Hstream; eauto.
  - rewrite Hstream. eauto.
Qed.

Lemma deliver_consistent platform call w w' :
  Hook.deliver platform call w = Some w' -> consistent w -> consistent w'.
Proof.
  destruct w as [s audio deepgram sockets].
  intros Hcall (Hflags & Hinit & Haudio & Hsocket). simpl in *.
  destruct call as [r|message| |]; simpl in Hcall.
  - destruct (Deepgram.conforms r) as [result|]; simpl in Hcall; [|done].
    injection Hcall as <-. unfold consistent, Hook.onTranscript, Hook.merge_transcript.
    simpl. by destruct (Deepgram.isFinal result).
  - injection Hcall as <-. by consistent_same.
  - injection Hcall as <-. unfold Hook.onOpen. simpl.
    destruct audio as [this|]; simpl.
    + pose proof (audio_startRecording_stream Hook.forward_to_sendAudio
                    (Hook.recorder platform) this) as [Hstream Hrec].
      destruct (AudioCapture.startRecording _ _ this) as [this' [[]|e]]; simpl in *.
      * unfold consistent; simpl. split; [done|]. split; [by eauto|]. split; [|done].
        intros ? [= <-] Hthis'. rewrite Hstream.
        destruct (Hrec Hthis') as [?|?]; [done|]. by eapply Haudio.
      * unfold consistent; simpl. split; [|split; [by eauto|split; [|done]]].
        -- done.
        -- intros ? [= <-] Hthis'. rewrite Hstream.
           destruct (Hrec Hthis') as [?|?]; [done|]. by eapply Haudio.
    + by consistent_same.
  - injection Hcall as <-. by consistent_same.
Qed.

Lemma initialize_consistent apiKey platform w :
  consistent w -> consistent (Hook.initialize apiKey platform w).
Proof.
  destruct w as [s audio deepgram sockets].
  intros (Hflags & Hinit & Haudio & Hsocket). simpl in *.
  unfold Hook.initialize, AudioCapture.initialize. simpl.
  destruct (AudioCapture.checkMediaDevicesSupport _) as [[stream|e]|e]; simpl;
    [|by consistent_same..].
  destruct (AudioCapture.new_AudioContext _) as [context|e]; simpl;
    [|by consistent_same].
  destruct (String.eqb apiKey ""); unfold consistent; simpl.
  - split; [done|]. split; [by eauto|]. split; [|done]. by intros ? [= <-].
  - split; [done|]. split; [by eauto|]. split; [by intros ? [= <-]|].
    by intros ? ? [= <-].
Qed.

Lemma startRecording_consistent apiKey platform w w' :
  Hook.startRecording apiKey platform w = Some w' -> consistent w -> consistent w'.
Proof.
  destruct w as [s audio deepgram sockets]. unfold Hook.startRecording. simpl.
  intros Hrun (Hflags & Hinit & Haudio & Hsocket). simpl in *.
  assert (forall e,
            consistent
              {| Hook.state := Hook.with_error e s; Hook.audioServiceRef := audio;
                 Hook.deepgramServiceRef := deepgram; Hook.sockets := sockets |}) as Hrejected.
  { intros e. by consistent_same. }
  destruct audio as [audio|]; [|injection Hrun as <-; apply Hrejected].
  destruct deepgram as [deepgram|]; [|injection Hrun as <-; apply Hrejected].
  destruct (String.eqb apiKey ""); [injection Hrun as <-; apply Hrejected|].
  unfold Deepgram.connect in Hrun.
  destruct (Deepgram.isConnected deepgram); simpl in Hrun.
  - injection Hrun as <-. by consistent_same.
  - destruct (Hook.new_WebSocket platform) as [[]|e]; simpl in Hrun;
      injection Hrun as <-; unfold consistent; simpl.
    + split; [done|]. split; [done|]. split; [done|].
      intros ? i [= <-] [= <-]. rewrite length_app. simpl. lia.
    + split; [done|]. split; [done|]. split; [done|].
      intros ? i [= <-] Hi. by apply (Hsocket deepgram).
Qed.

Lemma stopRecording_consistent w : consistent w -> consistent (Hook.stopRecording w).
Proof.
  intros (Hflags & Hinit & Haudio & Hsocket).
  destruct (stopRecording_components w) as (Hstate & Haudio' & Hdeepgram & Hsockets).
  unfold consistent. rewrite Hstate, Haudio', Hdeepgram. simpl.
  split; [done|]. split; [intros Hi; by apply fmap_is_Some, Hinit|]. split.
  - intros audio'. destruct (Hook.audioServiceRef w) as [audio|]; simpl; [|done].
    intros [= <-].
    destruct (audio_stopRecording_stopped audio) as (_ & Hrec & _). by rewrite Hrec.
  - intros deepgram' i. destruct (Hook.deepgramServiceRef w) as [deepgram|]; simpl; [|done].
    intros [= <-]. unfold Deepgram.disconnect.
    destruct (Deepgram.socket deepgram) eqn:Hs; simpl; by rewrite ?Hs.
Qed.

Lemma cleanup_consistent w : consistent w -> consistent (Hook.cleanup w).
Proof.
  destruct w as [s audio deepgram sockets].
  intros (Hflags & Hinit & Haudio & Hsocket). simpl in *.
  unfold Hook.cleanup, consistent. simpl.
  destruct audio as [audio|], deepgram as [deepgram|]; simpl;
    try destruct (Deepgram.disconnect deepgram sockets) as [deepgram' sockets'] eqn:Hd;
    simpl; (split; [done|]); (split; [by eauto|]).
  - split.
    + intros ? [= <-]. unfold AudioCapture.dispose, AudioCapture.stopRecording,
        AudioCapture.isRecording.
      by destruct audio as [? ? [[? []]|] [|? ?] ?].
    + intros ? i [= <-]. unfold Deepgram.disconnect in Hd.
      destruct (Deepgram.socket deepgram) eqn:Hs; injection Hd as <- <-; simpl;
        by rewrite ?Hs.
  - split; [|done].
    intros ? [= <-]. unfold AudioCapture.dispose, AudioCapture.stopRecording,
      AudioCapture.isRecording.
    by destruct audio as [? ? [[? []]|] [|? ?] ?].
  - split; [done|].
    intros ? i [= <-]. unfold Deepgram.disconnect in Hd.
    destruct (Deepgram.socket deepgram) eqn:Hs; injection Hd as <- <-; simpl;
      by rewrite ?Hs.
  - done.
Qed.

Lemma socket_event_consistent `{JsEngine} platform i ev w w' :
  Hook.socket_event platform i ev w = Some w' -> consistent w -> consistent w'.
Proof.
  destruct w as [s audio deepgram sockets]. unfold Hook.socket_event. simpl.
  intros Hrun (Hflags & Hinit & Haudio & Hsocket). simpl in *.
  destruct deepgram as [deepgram|].
  - assert (forall d, Deepgram.socket d = Deepgram.socket deepgram ->
              consistent
                {| Hook.state := s; Hook.audioServiceRef := audio;
                   Hook.deepgramServiceRef := Some d;
                   Hook.sockets := alter (Hook.transition ev) i sockets |}) as Hmoved.
    { intros d Hd. unfold consistent. simpl. split; [done|]. split; [done|].
      split; [done|]. intros ? j [= <-]. rewrite Hd, length_alter. by apply Hsocket. }
    destruct ev as [|data| |]; simpl in Hrun;
      (eapply (run_preserves consistent); [apply deliver_consistent|exact Hrun|]);
      by apply Hmoved.
  - injection Hrun as <-. unfold consistent. simpl. by repeat split.
Qed.

Lemma dataavailable_consistent data w :
  consistent w -> consistent (fst (fst (Hook.dataavailable data w))).
Proof.
  destruct w as [s audio deepgram sockets].
  intros (Hflags & Hinit & Haudio & Hsocket). simpl in *.
  unfold Hook.dataavailable. simpl.
  destruct audio as [audio|]; simpl; [|by consistent_same].
  assert (forall this,
            AudioCapture.mediaStream this = AudioCapture.mediaStream audio ->
            AudioCapture.mediaRecorder this = AudioCapture.mediaRecorder audio ->
            consistent
              {| Hook.state := s; Hook.audioServiceRef := Some this;
                 Hook.deepgramServiceRef := deepgram; Hook.sockets := sockets |}) as Hkept.
  { intros this Hstream Hrecorder. unfold consistent. simpl.
    split; [done|]. split; [by eauto|]. split; [|done].
    intros ? [= <-]. rewrite Hstream. unfold AudioCapture.isRecording.
    rewrite Hrecorder. by apply Haudio. }
  unfold AudioCapture.ondataavailable.
  destruct (0 <? AudioCapture.size data); simpl; [|by apply Hkept].
  destruct (AudioCapture.onDataCallback audio) as [[]|]; simpl; [|by apply Hkept].
  destruct deepgram as [deepgram|]; simpl; [|by apply Hkept].
  unfold Deepgram.sendAudio.
  destruct (Deepgram.socket deepgram) as [i|]; simpl; [|by apply Hkept].
  destruct (sockets !! i) as [ws|]; simpl; [|by apply Hkept].
  destruct (Deepgram.is_open ws); simpl; by apply Hkept.
Qed.

Lemma arrayBuffer_resolved_consistent buffer w :
  consistent w -> consistent (Hook.arrayBuffer_resolved buffer w).
Proof.
  destruct w as [s audio deepgram sockets].
  intros (Hflags & Hinit & Haudio & Hsocket). simpl in *.
  unfold Hook.arrayBuffer_resolved, Deepgram.arrayBuffer_then. simpl.
  destruct deepgram as [deepgram|]; [|by consistent_same].
  destruct (Deepgram.socket deepgram) as [i|] eqn:Hi; simpl; [|by consistent_same].
  destruct (sockets !! i) as [ws|]; simpl; [|by consistent_same].
  destruct (Deepgram.send _ ws) as [ws'|e]; simpl; [|by consistent_same].
  unfold consistent. simpl. split; [done|]. split; [done|]. split; [done|].
  intros ? j [= <-]. rewrite length_insert. by apply Hsocket.
Qed.

Lemma step_consistent `{JsEngine} a w w' :
  Hook.step a w = Some w' -> consistent w -> consistent w'.
Proof.
  destruct a; simpl.
  - intros [= <-]. apply initialize_consistent.
  - apply startRecording_consistent.
  - intros [= <-]. apply stopRecording_consistent.
  - intros [= <-]. destruct w. intros (? & ? & ? & ?). by consistent_same.
  - intros [= <-]. destruct w. intros (? & ? & ? & ?).
    unfold Hook.copyToClipboard. simpl.
    destruct (Hook.clipboard_writeText platform); by consistent_same.
  - intros [= <-]. destruct w as [s audio deepgram sockets]. intros (? & ? & ? & ?).
    unfold Hook.apiKey_effect. simpl.
    destruct (negb (String.eqb apiKey "") && Hook.isInitialized s); simpl;
      [|by consistent_same].
    unfold consistent. simpl. repeat split; auto. by intros ? ? [= <-].
  - intros [= <-]. apply cleanup_consistent.
  - apply socket_event_consistent.
  - apply deliver_consistent.
  - intros [= <-]. apply dataavailable_consistent.
  - intros [= <-]. apply arrayBuffer_resolved_consistent.
Qed.

(** X12. In every state the coordinator reaches from its initial state,
    by any of its actions called with any key on any platform and in any
    order, and by any events of the sockets, the recorder and the
    handlers: [isRecording] is never true without [isConnected];
    [isInitialized] is never true without an audio source; an audio source
    that records holds its stream; and the socket the channel refers to
    exists. *)
Theorem hook_states_are_consistent `{JsEngine}
    (actions : list Hook.Action) (w : Hook.World) :
  Hook.steps actions Hook.initial_world = Some w -> consistent w.
Proof.
  intros Hsteps.
  eapply (steps_preserves consistent (fun _ => true));
    [|by apply forallb_forall|exact Hsteps|].
  - intros a w1 w2 _. apply step_consistent.
  - unfold consistent. simpl. by repeat split.
Qed.

Lemma hook_states_are_consistent_witness :
  exists w, Hook.steps (H := refusing_engine) session_actions Hook.initial_world = Some w /\
            consistent w.
Proof.
  eexists. split; [reflexivity|].
  apply (hook_states_are_consistent (H := refusing_engine) session_actions).
  reflexivity.
Defined.

(** *** How the state changes *)

Section Frame.

Context `{JsEngine} (Q : Hook.VoiceToTextState -> Prop).

Hypothesis Q_isRecording : forall b s, Q s -> Q (Hook.with_isRecording b s).
Hypothesis Q_isConnected : forall b s, Q s -> Q (Hook.with_isConnected b s).
Hypothesis Q_interimTranscript : forall t s, Q s -> Q (Hook.with_interimTranscript t s).
Hypothesis Q_error : forall m s, Q s -> Q (Hook.with_error (Some m) s).
Hypothesis Q_merge : forall r s, Q s -> Q (Hook.merge_transcript r s).

Lemma deliver_state platform call w w' :
  Hook.deliver platform call w = Some w' -> Q (Hook.state w) -> Q (Hook.state w').
Proof.
  destruct w as [s audio deepgram sockets]. simpl.
  destruct call as [r|message| |]; simpl.
  - destruct (Deepgram.conforms r) as [result|]; simpl; [|done].
    intros [= <-]. simpl. apply Q_merge.
  - intros [= <-] Hs. simpl. by apply Q_isConnected, Q_isRecording, Q_error.
  - intros [= <-] Hs. unfold Hook.onOpen. simpl.
    destruct audio as [audio|]; simpl.
    + destruct (AudioCapture.startRecording _ _ audio) as [audio' [[]|e]]; simpl.
      * by apply Q_isRecording, Q_isConnected.
      * by apply Q_isConnected.
    + by apply Q_isRecording, Q_isConnected.
  - intros [= <-] Hs. simpl. by apply Q_isRecording, Q_isConnected.
Qed.

Lemma run_state platform effects w w' :
  Hook.run platform effects w = Some w' -> Q (Hook.state w) -> Q (Hook.state w').
Proof.
  apply (run_preserves (fun w => Q (Hook.state w))). apply deliver_state.
Qed.

Lemma cleanup_state w : Hook.state (Hook.cleanup w) = Hook.state w.
Proof.
  destruct w as [s [audio|] [deepgram|] sockets]; unfold Hook.cleanup; simpl;
    try destruct (Deepgram.disconnect deepgram sockets); done.
Qed.

Lemma dataavailable_state data w :
  Hook.state (fst (fst (Hook.dataavailable data w))) = Hook.state w.
Proof.
  destruct w as [s [audio|] deepgram sockets]; unfold Hook.dataavailable; simpl; [|done].
  destruct (AudioCapture.ondataavailable data audio) as [audio' [[[] blob]|]]; simpl;
    [|done].
  destruct deepgram as [deepgram|]; simpl; [|done].
  by destruct (Deepgram.sendAudio _ deepgram sockets) as [[sockets' effects] pending].
Qed.

Lemma arrayBuffer_resolved_state buffer w :
  Hook.state (Hook.arrayBuffer_resolved buffer w) = Hook.state w.
Proof.
  destruct w as [s audio [deepgram|] sockets]; unfold Hook.arrayBuffer_resolved; simpl;
    [|done].
  by destruct (Deepgram.arrayBuffer_then buffer deepgram sockets).
Qed.

(** Every action and every event changes the state through the five
    updaters above only, but for [initialize] and [startRecording], which
    also clear [error], the first setting [isInitialized] and
    [permissionStatus] as well, and for [clearTranscript]. *)
Lemma step_state a w w' :
  (clears_error a = true ->
   (forall s, Q s -> Q (Hook.with_error None s)) /\
   (forall b s, Q s -> Q (Hook.with_isInitialized b s)) /\
   (forall p s, Q s -> Q (Hook.with_permissionStatus p s))) ->
  (clears_transcript a = true -> forall s, Q s -> Q (Hook.with_transcript "" s)) ->
  Hook.step a w = Some w' -> Q (Hook.state w) -> Q (Hook.state w').
Proof.
  destruct a; simpl; intros Hretry Hclear.
  - destruct Hretry as (Q_none & Q_isInitialized & Q_permissionStatus); [done|].
    intros [= <-] Hs. unfold Hook.initialize.
    destruct (AudioCapture.initialize _ _) as [audio [granted|e]].
    + destruct (String.eqb apiKey "");
        cbv beta iota delta [Hook.state Hook.setState Hook.set_audioServiceRef
                             Hook.set_deepgramServiceRef];
        by apply Q_permissionStatus, Q_isInitialized, Q_permissionStatus, Q_none.
    + cbv beta iota delta [Hook.state Hook.setState].
      by apply Q_isInitialized, Q_error, Q_permissionStatus, Q_none.
  - destruct Hretry as (Q_none & _); [done|].
    unfold Hook.startRecording.
    destruct (Hook.audioServiceRef w), (Hook.deepgramServiceRef w) as [deepgram|];
      try (intros [= <-] Hs; by apply Q_error).
    destruct (String.eqb apiKey ""); [intros [= <-] Hs; by apply Q_error|].
    destruct (Deepgram.connect _ _ deepgram _) as [[deepgram' sockets'] effects].
    intros Hrun Hs. eapply run_state; [exact Hrun|]. simpl.
    by apply Q_interimTranscript, Q_none.
  - intros [= <-] Hs. destruct (stopRecording_components w) as (-> & _).
    by apply Q_interimTranscript, Q_isConnected, Q_isRecording.
  - intros [= <-] Hs. simpl. by apply Q_interimTranscript, Hclear.
  - intros [= <-] Hs. unfold Hook.copyToClipboard.
    destruct (Hook.clipboard_writeText platform); simpl; [done|]. by apply Q_error.
  - intros [= <-]. unfold Hook.apiKey_effect. by destruct (_ && _).
  - intros [= <-]. by rewrite cleanup_state.
  - unfold Hook.socket_event.
    destruct w as [s audio [deepgram|] sockets]; simpl; [|by intros [= <-]].
    destruct ev; simpl; apply run_state.
  - apply deliver_state.
  - intros [= <-]. by rewrite dataavailable_state.
  - intros [= <-]. by rewrite arrayBuffer_resolved_state.
Qed.

End Frame.

(** X13. An error that is set stays set, possibly replaced by a later
    one, through every action and event of the coordinator other than
    [initialize] and [startRecording]: stopping, clearing or copying the
    transcript, results, socket events and audio chunks never clear it. *)
Theorem error_stays_until_retry `{JsEngine}
    (actions : list Hook.Action) (w w' : Hook.World) :
  forallb (fun a => negb (clears_error a)) actions = true ->
  Hook.steps actions w = Some w' ->
  is_Some (Hook.error (Hook.state w)) ->
  is_Some (Hook.error (Hook.state w')).
Proof.
  apply (steps_preserves (fun w => is_Some (Hook.error (Hook.state w)))).
  intros a w1 w2 Hok%negb_true_iff.
  apply (step_state (fun s => is_Some (Hook.error s))); try done.
  - intros r s. unfold Hook.merge_transcript. by destruct (Deepgram.isFinal r).
  - by rewrite Hok.
Qed.

Lemma error_stays_until_retry_witness :
  exists w',
    Hook.steps (H := refusing_engine)
      [Hook.DoStopRecording; Hook.DoClearTranscript;
       Hook.OnSocket (granting 1 1) 0 Hook.CloseEvent]
      (Hook.onError "WebSocket connection error" while_streaming) = Some w' /\
    is_Some (Hook.error (Hook.state w')).
Proof.
  eexists. split; [reflexivity|].
  eapply (error_stays_until_retry (H := refusing_engine)
            [Hook.DoStopRecording; Hook.DoClearTranscript;
             Hook.OnSocket (granting 1 1) 0 Hook.CloseEvent]
            (Hook.onError "WebSocket connection error" while_streaming)).
  - reflexivity.
  - reflexivity.
  - by eexists.
Defined.

Lemma append_empty_r (a : string) : a +:+ "" = a.
Proof.
  induction a as [|x a IH]; [done|].
  change (String x (a +:+ "") = String x a). by rewrite IH.
Qed.

(** X14. The accumulated transcript only grows until it is cleared:
    through every action and event of the coordinator other than
    [clearTranscript], errors, closes, stops, reconnections and a new
    [initialize] included, the transcript before is a prefix of the
    transcript after. *)
Theorem transcript_only_grows_until_cleared `{JsEngine}
    (actions : list Hook.Action) (w w' : Hook.World) :
  forallb (fun a => negb (clears_transcript a)) actions = true ->
  Hook.steps actions w = Some w' ->
  exists suffix,
    Hook.transcript (Hook.state w') = Hook.transcript (Hook.state w) +:+ suffix.
Proof.
  intros Hok Hsteps.
  apply (steps_preserves
           (fun w1 => exists suffix,
              Hook.transcript (Hook.state w1) = Hook.transcript (Hook.state w) +:+ suffix)
           (fun a => negb (clears_transcript a))) with (actions := actions) (w := w);
    [|done|done|].
  - intros a w1 w2 Ha%negb_true_iff.
    apply (step_state (fun s => exists suffix,
                         Hook.transcript s = Hook.transcript (Hook.state w) +:+ suffix));
      try done.
    + intros r s [suffix Hs]. unfold Hook.merge_transcript.
      destruct (Deepgram.isFinal r); simpl; [|by eexists].
      destruct (String.eqb_spec (Hook.transcript s) "") as [Hempty|_].
      * rewrite Hempty in Hs.
        destruct (Hook.transcript (Hook.state w)); [|done].
        by exists (Deepgram.transcript r).
      * exists (suffix +:+ " " +:+ Deepgram.transcript r).
        by rewrite Hs, append_assoc.
    + by rewrite Ha.
  - exists "". by rewrite append_empty_r.
Qed.

Lemma transcript_only_grows_until_cleared_witness :
  let w := Hook.onTranscript (final_result "so far") while_streaming in
  let actions :=
    [Hook.OnSocket (granting 1 1) 0
       (Hook.MessageEvent
          (Deepgram.Parses (results_frame [("is_final", JBool true)] "and more")));
     Hook.OnSocket (granting 1 1) 0 Hook.ErrorEvent;
     Hook.DoStopRecording;
     Hook.DoInitialize "key" denying] in
  exists w' suffix,
    Hook.steps (H := refusing_engine) actions w = Some w' /\
    Hook.transcript (Hook.state w') = "so far" +:+ suffix.
Proof.
  intros w actions.
  destruct (Hook.steps (H := refusing_engine) actions w) as [w'|] eqn:Hsteps;
    [|by vm_compute in Hsteps].
  destruct (transcript_only_grows_until_cleared (H := refusing_engine) actions w w'
              eq_refl Hsteps) as [suffix Hsuffix].
  by exists w', suffix.
Defined.

(** *** The socket opens *)

(** X15. When a socket of the channel opens, the channel is connected and
    the state says so; the audio source is started with the callback that
    forwards chunks to [sendAudio], and [isRecording] becomes true exactly
    when that start succeeds. When it fails, because the source holds no
    stream or the platform cannot create or start a recorder, the
    exception leaves the callback: [isRecording] keeps its value and no
    error is recorded, the state staying connected. Transcripts and error
    are unchanged either way. *)
Theorem open_event_starts_capture `{JsEngine} (platform : Hook.Platform) (i : nat)
    (w : Hook.World) (deepgram : Deepgram.DeepgramService Hook.Handlers)
    (audio : AudioCapture.AudioCaptureService Hook.Forward) :
  Hook.deepgramServiceRef w = Some deepgram ->
  is_Some (Deepgram.handlers deepgram) ->
  Hook.audioServiceRef w = Some audio ->
  let started :=
    AudioCapture.startRecording Hook.forward_to_sendAudio (Hook.recorder platform) audio in
  exists w',
    Hook.socket_event platform i Hook.OpenEvent w = Some w' /\
    Hook.isConnected (Hook.state w') = true /\
    Hook.deepgramServiceRef w' = Some (Deepgram.set_isConnected true deepgram) /\
    Hook.sockets w' = alter (Hook.transition Hook.OpenEvent) i (Hook.sockets w) /\
    Hook.audioServiceRef w' = Some (fst started) /\
    Hook.isRecording (Hook.state w')
    = match snd started with
      | Normal _ => true
      | Throw _ => Hook.isRecording (Hook.state w)
      end /\
    (snd started = Normal tt -> AudioCapture.isRecording (fst started) = true) /\
    Hook.error (Hook.state w') = Hook.error (Hook.state w) /\
    Hook.transcript (Hook.state w') = Hook.transcript (Hook.state w) /\
    Hook.interimTranscript (Hook.state w') = Hook.interimTranscript (Hook.state w) /\
    Hook.isInitialized (Hook.state w') = Hook.isInitialized (Hook.state w).
Proof.
  intros Hdeepgram [h Hh] Haudio started.
  destruct w as [s audio0 deepgram0 sockets]. simpl in *. subst audio0 deepgram0.
  unfold Hook.socket_event, Deepgram.socket_onopen, Deepgram.invoke. simpl.
  rewrite Hh. destruct h. simpl. unfold Hook.onOpen. simpl.
  assert (snd started = Normal tt -> AudioCapture.isRecording (fst started) = true)
    as Hrecording.
  { subst started. unfold AudioCapture.startRecording.
    destruct (AudioCapture.mediaStream audio); [|done].
    destruct (AudioCapture.new_MediaRecorder _); [|done].
    by destruct (AudioCapture.start _). }
  fold started. destruct started as [audio' [[]|e]]; simpl in *;
    (eexists; split; [reflexivity|]); simpl; by repeat split.
Qed.

Lemma open_event_starts_capture_witness :
  let platform := without_recorder in
  let w0 := Hook.initialize "key" (granting 1 1) Hook.initial_world in
  exists w w',
    Hook.startRecording "key" platform w0 = Some w /\
    Hook.socket_event (H := refusing_engine) platform 0 Hook.OpenEvent w = Some w' /\
    Hook.isConnected (Hook.state w') = true /\
    Hook.isRecording (Hook.state w') = false /\
    Hook.error (Hook.state w') = None.
Proof.
  intros platform w0.
  destruct (Hook.startRecording "key" platform w0) as [w|] eqn:Hstart;
    [|by vm_compute in Hstart].
  vm_compute in Hstart. injection Hstart as <-.
  match goal with
  | |- exists w w', Some ?w0 = Some w /\ _ =>
      destruct (open_event_starts_capture (H := refusing_engine) platform 0 w0
                  (Deepgram.set_socket (Some 0)
                     (Deepgram.set_handlers (Some Hook.handlers_of_startRecording)
                        (Deepgram.new_DeepgramService "key")))
                  (AudioCapture.set_audioContext (Some 1)
                     (AudioCapture.set_mediaStream (Some 1)
                        AudioCapture.new_AudioCaptureService))
                  eq_refl (ex_intro _ _ eq_refl) eq_refl)
        as (w' & Hopen & Hconnected & _ & _ & _ & Hrecording & _ & Herror & _);
      exists w0, w'
  end.
  split; [reflexivity|]. split; [exact Hopen|]. split; [exact Hconnected|].
  split; [exact Hrecording|exact Herror].
Defined.

(** ** Properties of what is displayed *)

(** X16. What the status indicator shows of a consistent state, which
    every state of the coordinator is: "Error" exactly when there is an
    error with a non-empty message, and then the message is displayed
    below; "Recording" only while recording on an open connection;
    "Connected" only while connected and not recording; "Ready" only when
    initialized, holding an audio source, and neither connected nor
    recording; "Not Initialized" only when none of the three flags is
    set. *)
Theorem status_matches_the_state (w : Hook.World) :
  consistent w ->
  let s := Hook.state w in
  let status := Components.status_of s in
  (Components.label status = "Error" <-> Components.shown (Hook.error s) = true) /\
  (Components.label status = "Error" <->
   exists message, Components.error_message (Hook.error s) = Some message /\
                   Hook.error s = Some message /\ message <> "") /\
  (Components.label status = "Recording" ->
   Hook.isRecording s = true /\ Hook.isConnected s = true) /\
  (Components.label status = "Connected" ->
   Hook.isConnected s = true /\ Hook.isRecording s = false) /\
  (Components.label status = "Ready" ->
   Hook.isInitialized s = true /\ is_Some (Hook.audioServiceRef w) /\
   Hook.isConnected s = false /\ Hook.isRecording s = false) /\
  (Components.label status = "Not Initialized" ->
   Hook.isInitialized s = false /\ Hook.isConnected s = false /\
   Hook.isRecording s = false).
Proof.
  intros (Hflags & Hinit & _ & _) s status. subst status.
  unfold Components.status_of, Components.getStatus, Components.error_message,
    Components.shown, Components.nonempty.
  fold s in Hflags, Hinit.
  destruct (Hook.error s) as [message|] eqn:Herror; simpl.
  - destruct (String.eqb_spec message "") as [->|Hmessage]; simpl.
    + destruct (Hook.isRecording s) eqn:Hr; simpl.
      { rewrite Hflags by done.
        repeat split; try done; try (by intros (? & ? & ? & ?)). }
      destruct (Hook.isConnected s) eqn:Hc; simpl.
      { repeat split; try done; try (by intros (? & ? & ? & ?)). }
      destruct (Hook.isInitialized s) eqn:Hi; simpl.
      { repeat split; try done; try (by intros (? & ? & ? & ?)). by apply Hinit. }
      repeat split; try done; by intros (? & ? & ? & ?).
    + repeat split; try done. intros _. by exists message.
  - destruct (Hook.isRecording s) eqn:Hr; simpl.
    { rewrite Hflags by done.
      repeat split; try done; try (by intros (? & ? & ? & ?)). }
    destruct (Hook.isConnected s) eqn:Hc; simpl.
    { repeat split; try done; try (by intros (? & ? & ? & ?)). }
    destruct (Hook.isInitialized s) eqn:Hi; simpl.
    { repeat split; try done; try (by intros (? & ? & ? & ?)). by apply Hinit. }
    repeat split; try done; by intros (? & ? & ? & ?).
Qed.

Lemma while_streaming_consistent : consistent while_streaming.
Proof.
  unfold consistent. split; [done|]. split; [intros _; by eexists|]. split.
  - intros audio [= <-] _. by eexists.
  - intros deepgram i [= <-] [= <-]. simpl. lia.
Qed.

Lemma status_matches_the_state_witness :
  Components.label (Components.status_of (Hook.state while_streaming)) = "Recording" /\
  Hook.isRecording (Hook.state while_streaming) = true /\
  Hook.isConnected (Hook.state while_streaming) = true.
Proof.
  split; [reflexivity|].
  by apply (status_matches_the_state while_streaming while_streaming_consistent).
Defined.

(** X17. What the transcript display offers: the copy button is disabled
    exactly when the accumulated transcript is empty, so a copy started
    from the button writes a non-empty text, the accumulated transcript
    without the interim one; the clear button is disabled, and the
    placeholder shown, exactly when both transcripts are empty; and after
    [clearTranscript] the placeholder is shown and both buttons are
    disabled, in every state. *)
Theorem transcript_display_matches_the_state (platform : Hook.Platform) (w : Hook.World) :
  let s := Hook.state w in
  let display := Components.display_of s in
  (Components.copy_disabled display = true <-> Hook.transcript s = "") /\
  (Components.clear_disabled display = true <->
   Hook.transcript s = "" /\ Hook.interimTranscript s = "") /\
  (Components.body display = None <->
   Hook.transcript s = "" /\ Hook.interimTranscript s = "") /\
  (Components.copy_disabled display = false ->
   Hook.clipboard_writeText platform = Normal tt ->
   Hook.copyToClipboard platform w = (w, Some (Hook.transcript s)) /\
   Hook.transcript s <> "") /\
  Components.display_of (Hook.state (Hook.clearTranscript w))
  = {| Components.body := None;
       Components.copy_disabled := true;
       Components.clear_disabled := true |}.
Proof.
  intros s display. subst display.
  unfold Components.display_of, Components.TranscriptDisplay, Components.nonempty,
    Hook.copyToClipboard.
  fold s.
  destruct (String.eqb_spec (Hook.transcript s) "") as [Ht|Ht];
    destruct (String.eqb_spec (Hook.interimTranscript s) "") as [Hi|Hi]; simpl;
    repeat split; try done; try (by intros [? ?]); try (by intros ->).
  all: match goal with
       | Hwrite : Hook.clipboard_writeText _ = _ |- _ => by rewrite Hwrite
       end.
Qed.

(** ** Properties of the mounted component *)










(** ** Audio on its way to the socket *)

(** X19. A chunk that carries data, recorded while the audio source has
    the forwarding callback and the channel holds a socket: the chunk is
    buffered by the source and the state is unchanged. When the socket is
    open, [sendAudio] logs and waits for the bytes, and when they arrive
    they are the next binary frame of that socket, no other socket being
    touched. When it is not open, after a remote close for instance, the
    chunk is dropped with a warning and no frame is sent. *)
Theorem chunk_reaches_the_open_socket (data : AudioCapture.Blob) (buffer : list Byte.byte)
    (w : Hook.World) (audio : AudioCapture.AudioCaptureService Hook.Forward)
    (deepgram : Deepgram.DeepgramService Hook.Handlers) (i : nat)
    (ws : Deepgram.WebSocket) :
  Hook.audioServiceRef w = Some audio ->
  is_Some (AudioCapture.onDataCallback audio) ->
  Hook.deepgramServiceRef w = Some deepgram ->
  Deepgram.socket deepgram = Some i ->
  Hook.sockets w !! i = Some ws ->
  0 < AudioCapture.size data ->
  let w1 := fst (fst (Hook.dataavailable data w)) in
  let effects := snd (fst (Hook.dataavailable data w)) in
  let pending := snd (Hook.dataavailable data w) in
  Hook.audioServiceRef w1
  = Some (AudioCapture.set_audioChunks (AudioCapture.audioChunks audio ++ [data]) audio) /\
  Hook.state w1 = Hook.state w /\
  Hook.deepgramServiceRef w1 = Some deepgram /\
  Hook.sockets w1 = Hook.sockets w /\
  if Deepgram.is_open ws then
    pending = true /\
    effects = [Deepgram.Console Deepgram.LogLevel "Sending audio blob:"] /\
    Hook.sockets (Hook.arrayBuffer_resolved buffer w1)
    = <[i := Deepgram.ws_send (Deepgram.BinaryFrame buffer) ws]> (Hook.sockets w)
  else
    pending = false /\
    effects = [Deepgram.Console Deepgram.WarnLevel
                 "Cannot send audio: WebSocket not connected"] /\
    Hook.sockets (Hook.arrayBuffer_resolved buffer w1) = Hook.sockets w.
Proof.
  intros Haudio [[] Hcallback] Hdeepgram Hsocket Hws Hsize.
  destruct w as [s audio0 deepgram0 sockets]. simpl in *. subst audio0 deepgram0.
  unfold Hook.dataavailable, AudioCapture.ondataavailable. simpl.
  rewrite (proj2 (Nat.ltb_lt _ _) Hsize). simpl. rewrite Hcallback. simpl.
  unfold Deepgram.sendAudio. rewrite Hsocket, Hws.
  unfold Hook.arrayBuffer_resolved, Deepgram.arrayBuffer_then, Deepgram.send.
  unfold Deepgram.is_open.
  destruct (Deepgram.readyState ws) eqn:Hstate; simpl; rewrite Hsocket, Hws; simpl;
    rewrite Hstate; simpl; repeat split; try done.
  all: by rewrite list_insert_id.
Qed.

Lemma chunk_reaches_the_open_socket_witness :
  let data := {| AudioCapture.size := 3; AudioCapture.type := "audio/webm" |} in
  Hook.sockets (Hook.arrayBuffer_resolved []
                  (fst (fst (Hook.dataavailable data while_streaming))))
  = [Deepgram.ws_send (Deepgram.BinaryFrame [])
       (Hook.transition Hook.OpenEvent (opening (Deepgram.config
          (@Deepgram.new_DeepgramService Hook.Handlers "key"))))] /\
  Hook.sockets (Hook.arrayBuffer_resolved []
                  (fst (fst (Hook.dataavailable data after_remote_close))))
  = Hook.sockets after_remote_close.
Proof.
  intros data. split.
  - by destruct (chunk_reaches_the_open_socket data [] while_streaming _ _ 0 _
                   eq_refl (ex_intro _ _ eq_refl) eq_refl eq_refl eq_refl
                   (Nat.lt_0_succ 2))
      as (_ & _ & _ & _ & _ & _ & Hsent).
  - by destruct (chunk_reaches_the_open_socket data [] after_remote_close _ _ 0 _
                   eq_refl (ex_intro _ _ eq_refl) eq_refl eq_refl eq_refl
                   (Nat.lt_0_succ 2))
      as (_ & _ & _ & _ & _ & _ & Hdropped).
Defined.

(** ** Unmounting *)

Lemma audio_dispose_disposed {Callback}
    (this : AudioCapture.AudioCaptureService Callback) :
  AudioCapture.mediaStream (fst (AudioCapture.dispose this)) = None /\
  AudioCapture.audioContext (fst (AudioCapture.dispose this)) = None /\
  AudioCapture.isRecording (fst (AudioCapture.dispose this)) = false /\
  fst (AudioCapture.dispose (fst (AudioCapture.dispose this)))
  = fst (AudioCapture.dispose this).
Proof.
  unfold AudioCapture.dispose, AudioCapture.stopRecording, AudioCapture.isRecording.
  destruct this as [stream context [[s []]|] [|chunk chunks] callback]; simpl;
    by repeat split.
Qed.

(** The four components of the world after the cleanup. *)
Lemma cleanup_components (w : Hook.World) :
  Hook.state (Hook.cleanup w) = Hook.state w /\
  Hook.audioServiceRef (Hook.cleanup w)
  = (fun audio => fst (AudioCapture.dispose audio)) <$> Hook.audioServiceRef w /\
  Hook.deepgramServiceRef (Hook.cleanup w)
  = (fun deepgram => fst (Deepgram.disconnect deepgram (Hook.sockets w)))
      <$> Hook.deepgramServiceRef w /\
  Hook.sockets (Hook.cleanup w)
  = match Hook.deepgramServiceRef w with
    | Some deepgram => snd (Deepgram.disconnect deepgram (Hook.sockets w))
    | None => Hook.sockets w
    end.
Proof.
  destruct w as [s [audio|] [deepgram|] sockets]; unfold Hook.cleanup; simpl;
    try destruct (Deepgram.disconnect deepgram sockets); done.
Qed.

(** X20. The cleanup on unmount releases what the refs hold, in every
    state: the audio source has stopped its tracks and closed its context
    and holds neither, and is not recording; the channel holds no socket
    and is not connected, and the socket it held is no longer opening or
    open, having been sent [CloseStream] when it was open. The state
    itself is not touched, and a second cleanup changes nothing. *)
Theorem cleanup_releases_the_services (w : Hook.World) :
  let w' := Hook.cleanup w in
  Hook.state w' = Hook.state w /\
  Hook.audioServiceRef w'
  = (fun audio => fst (AudioCapture.dispose audio)) <$> Hook.audioServiceRef w /\
  (forall audio, Hook.audioServiceRef w' = Some audio ->
     AudioCapture.mediaStream audio = None /\ AudioCapture.audioContext audio = None /\
     AudioCapture.isRecording audio = false) /\
  (forall deepgram, Hook.deepgramServiceRef w' = Some deepgram ->
     Deepgram.socket deepgram = None /\ Deepgram.isConnected deepgram = false) /\
  (forall deepgram i ws,
     Hook.deepgramServiceRef w = Some deepgram ->
     Deepgram.socket deepgram = Some i ->
     Hook.sockets w !! i = Some ws ->
     exists ws',
       Hook.sockets w' !! i = Some ws' /\ live ws' = false /\
       Deepgram.outbox ws'
       = Deepgram.outbox ws ++ (if Deepgram.is_open ws then [CloseStream] else [])) /\
  Hook.cleanup w' = w'.
Proof.
  intros w'. subst w'.
  destruct (cleanup_components w) as (Hstate & Haudio & Hdeepgram & Hsockets).
  split; [done|]. split; [done|]. split.
  { intros audio'. rewrite Haudio.
    destruct (Hook.audioServiceRef w) as [audio|]; simpl; [|done].
    intros [= <-]. by destruct (audio_dispose_disposed audio) as (? & ? & ? & _). }
  split.
  { intros deepgram'. rewrite Hdeepgram.
    destruct (Hook.deepgramServiceRef w) as [deepgram|]; simpl; [|done].
    intros [= <-]. unfold Deepgram.disconnect.
    destruct (Deepgram.socket deepgram) eqn:Hsocket; simpl; by rewrite ?Hsocket. }
  split.
  { intros deepgram i ws Href Hsocket Hws. rewrite Hsockets, Href.
    unfold Deepgram.disconnect. rewrite Hsocket. simpl.
    rewrite list_lookup_alter_eq, Hws. simpl. eexists. split; [reflexivity|].
    unfold live, Deepgram.is_open.
    destruct (Deepgram.readyState ws) eqn:Hstate'; simpl;
      by rewrite ?Hstate', ?app_nil_r. }
  destruct (cleanup_components (Hook.cleanup w))
    as (Hstate' & Haudio' & Hdeepgram' & Hsockets').
  apply world_eq.
  - by rewrite Hstate'.
  - rewrite Haudio', Haudio.
    destruct (Hook.audioServiceRef w) as [audio|]; [|done].
    change (Some (fst (AudioCapture.dispose (fst (AudioCapture.dispose audio))))
            = Some (fst (AudioCapture.dispose audio))).
    by destruct (audio_dispose_disposed audio) as (_ & _ & _ & ->).
  - rewrite Hdeepgram', Hdeepgram, Hsockets.
    destruct (Hook.deepgramServiceRef w) as [deepgram|]; simpl; [|done].
    by rewrite disconnect_disconnected.
  - rewrite Hsockets', Hdeepgram, Hsockets.
    destruct (Hook.deepgramServiceRef w) as [deepgram|]; simpl; [|done].
    by rewrite disconnect_disconnected.
Qed.
